(** * open-computer: the desktop agents' turn loop and action executor

    A shallow embedding of [src/index.ts] (class [ComputerUseAgent]), of the
    executor of the interactive agent (class [InteractiveComputerAgent]) and of
    [DesktopController.scroll] from [src/desktop-controller.ts].

    Conventions of the embedding.
    - An [async] method is a computation in a state-and-exception monad [M]:
      every [await] is sequential composition, [throw] and [try]/[catch] are
      the monad's own.  An exception is represented by its message (what
      [error instanceof Error ? error.message : String(error)] extracts).
    - The remote desktop sandbox, the local file system and the completion
      provider are the environment: the n-th call made to one of them is
      answered by the n-th reply of the corresponding oracle.  Every call is
      recorded in the trace of the state, in program order.
    - A JavaScript number is an exact rational or [NaN]; an omitted property
      of a tool input is [None] (JavaScript's [undefined]).
    - [console.log] and [console.error] output is not modelled, and neither is
      the model identifier of a request, a constant of the process. *)

From Stdlib Require Import List String Ascii Bool Arith ZArith QArith Qround Lia.
Import ListNotations.
Close Scope Q_scope.
Local Open Scope string_scope.
Local Open Scope list_scope.

(* ------------------------------------------------------------------ *)
(** ** JavaScript values used by the agents *)

Inductive number : Type :=
| Num (q : Q)
| NaN.

(** [ToNumber] on a possibly missing numeric property. *)
Definition ToNumber (v : option number) : number :=
  match v with
  | Some n => n
  | None => NaN
  end.

(** [Math.round]: the integer closest to the argument, ties towards
    +infinity; [NaN] stays [NaN]. *)
Definition Math_round (n : number) : number :=
  match n with
  | Num q => Num (inject_Z (Qfloor (q + (1 # 2))))
  | NaN => NaN
  end.

(** The relational operator [a < b] on numbers. *)
Definition js_lt (a b : number) : bool :=
  match a, b with
  | Num p, Num q => negb (Qle_bool q p)
  | _, _ => false
  end.

(** Truthiness of a number: [0] and [NaN] are falsy. *)
Definition truthy (n : number) : bool :=
  match n with
  | Num q => negb (Qeq_bool q 0)
  | NaN => false
  end.

(** [a || b] on numbers. *)
Definition js_or (a b : number) : number :=
  if truthy a then a else b.


(** Number of iterations of [for (let i = 0; i < amount; i++)]. *)
Definition loop_count (amount : number) : nat :=
  match amount with
  | Num q => Z.to_nat (Qceiling q)
  | NaN => 0
  end.

(* ------------------------------------------------------------------ *)
(** ** [JSON.stringify] on the flat objects the executor returns *)

Definition dquote : string := String (ascii_of_nat 34) EmptyString.
Definition backslash : string := String (ascii_of_nat 92) EmptyString.

Definition hex_digit (n : nat) : string :=
  String (nth n (list_ascii_of_string "0123456789abcdef") "0"%char) EmptyString.

(** One character of [QuoteJSONString]. *)
Definition escape_char (c : ascii) : string :=
  let n := nat_of_ascii c in
  if (n =? 34)%nat then backslash ++ dquote
  else if (n =? 92)%nat then backslash ++ backslash
  else if (n =? 8)%nat then backslash ++ "b"
  else if (n =? 9)%nat then backslash ++ "t"
  else if (n =? 10)%nat then backslash ++ "n"
  else if (n =? 12)%nat then backslash ++ "f"
  else if (n =? 13)%nat then backslash ++ "r"
  else if (n <? 32)%nat then backslash ++ "u00" ++ hex_digit (n / 16) ++ hex_digit (n mod 16)
  else String c EmptyString.

Fixpoint escape (s : string) : string :=
  match s with
  | EmptyString => EmptyString
  | String c rest => escape_char c ++ escape rest
  end.

Definition quote (s : string) : string := dquote ++ escape s ++ dquote.

Inductive json_value : Type :=
| JString (s : string)
| JTrue.

Definition stringify_value (v : json_value) : string :=
  match v with
  | JString s => quote s
  | JTrue => "true"
  end.

Fixpoint stringify_members (fields : list (string * json_value)) : string :=
  match fields with
  | [] => ""
  | [(k, v)] => quote k ++ ":" ++ stringify_value v
  | (k, v) :: rest => quote k ++ ":" ++ stringify_value v ++ "," ++ stringify_members rest
  end.

Definition JSON_stringify (fields : list (string * json_value)) : string :=
  "{" ++ stringify_members fields ++ "}".

(* ------------------------------------------------------------------ *)
(** ** Conversation data *)

(** The parameter mapping of a tool call, read through the casts of
    [executeToolCall]: [{x, y}], [{text}], [{key}], [{direction, amount}],
    [{app}], [{duration}]. *)
Record ToolInput : Type := mkInput {
  x : option number;
  y : option number;
  text : option string;
  key : option string;
  direction : option string;
  amount : option number;
  app : option string;
  duration : option number
}.

Definition empty_input : ToolInput :=
  mkInput None None None None None None None None.

Inductive Block : Type :=
| BText (t : string)
| BToolUse (id name : string) (input : ToolInput)
| BImage (data : string)
| BToolResult (tool_use_id content : string)
| BOther (type : string).

Inductive Role : Type := user | assistant.

Inductive Content : Type :=
| CString (s : string)
| CBlocks (blocks : list Block).

Record Message : Type := mkMessage {
  role : Role;
  content : Content
}.

Record ToolCall : Type := mkToolCall {
  tc_id : string;
  tc_name : string;
  tc_input : ToolInput
}.

(** One entry of the [messages] array of a completion request. *)
Record Entry : Type := mkEntry {
  entry_role : Role;
  entry_content : list Block
}.

Record Request : Type := mkRequest {
  max_tokens : nat;
  system : string;
  messages : list Entry
}.

Record Response : Type := mkResponse {
  response_content : list Block
}.

(* ------------------------------------------------------------------ *)
(** ** The environment and the trace *)

Inductive SandboxCall : Type :=
| Create
| Screenshot
| Click (cx cy : number)
| Write (t : option string)
| Press (k : option string)
| Launch (a : option string)
| Kill.

Inductive event : Type :=
| ESandbox (c : SandboxCall)
| EReadFile (path : string)
| ESleep (ms : option number)
| EProvider (req : Request)
| EExec (name : string) (input : ToolInput).

Inductive reply (A : Type) : Type :=
| Ok (a : A)
| Failed (msg : string).
Arguments Ok {A} a.
Arguments Failed {A} msg.

Record Env : Type := mkEnv {
  sandbox_reply : nat -> reply string;
  fs_reply : nat -> reply string;
  provider_reply : nat -> reply Response
}.

Fixpoint sandbox_calls (t : list event) : list SandboxCall :=
  match t with
  | [] => []
  | ESandbox c :: t' => c :: sandbox_calls t'
  | _ :: t' => sandbox_calls t'
  end.

Fixpoint file_reads (t : list event) : list string :=
  match t with
  | [] => []
  | EReadFile p :: t' => p :: file_reads t'
  | _ :: t' => file_reads t'
  end.

Fixpoint provider_requests (t : list event) : list Request :=
  match t with
  | [] => []
  | EProvider r :: t' => r :: provider_requests t'
  | _ :: t' => provider_requests t'
  end.

Fixpoint executor_calls (t : list event) : list (string * ToolInput) :=
  match t with
  | [] => []
  | EExec n i :: t' => (n, i) :: executor_calls t'
  | _ :: t' => executor_calls t'
  end.

(* ------------------------------------------------------------------ *)
(** ** Agent state and the monad *)

Record State : Type := mkState {
  desktop : option string;
  conversationHistory : list Message;
  trace : list event
}.

Definition new_agent : State := mkState None [] [].

Inductive outcome (A : Type) : Type :=
| Ret (a : A)
| Throw (msg : string).
Arguments Ret {A} a.
Arguments Throw {A} msg.

Definition M (A : Type) : Type := State -> outcome A * State.

Definition ret {A} (a : A) : M A := fun s => (Ret a, s).

Definition throw {A} (msg : string) : M A := fun s => (Throw msg, s).

Definition bind {A B} (m : M A) (k : A -> M B) : M B :=
  fun s =>
    match m s with
    | (Ret a, s') => k a s'
    | (Throw msg, s') => (Throw msg, s')
    end.

Definition try_catch {A} (m : M A) (handler : string -> M A) : M A :=
  fun s =>
    match m s with
    | (Ret a, s') => (Ret a, s')
    | (Throw msg, s') => handler msg s'
    end.

Notation "x <- m ;; k" := (bind m (fun x => k))
  (at level 61, m at next level, right associativity).
Notation "m ;;; k" := (bind m (fun _ => k))
  (at level 61, right associativity).

Definition record (e : event) : M unit :=
  fun s => (Ret tt, mkState (desktop s) (conversationHistory s) (trace s ++ [e])).

Definition get_desktop : M (option string) := fun s => (Ret (desktop s), s).

Definition set_desktop (d : option string) : M unit :=
  fun s => (Ret tt, mkState d (conversationHistory s) (trace s)).

Definition get_history : M (list Message) :=
  fun s => (Ret (conversationHistory s), s).

(** [this.conversationHistory.push(m)] *)
Definition push_history (m : Message) : M unit :=
  fun s => (Ret tt, mkState (desktop s) (conversationHistory s ++ [m]) (trace s)).

Definition of_reply {A} (r : reply A) : M A :=
  match r with
  | Ok a => ret a
  | Failed msg => throw msg
  end.

Section Environment.

Variable env : Env.

(** A call on the sandbox; it is recorded, then answered by the oracle. *)
Definition sandbox (c : SandboxCall) : M string :=
  fun s =>
    (record (ESandbox c) ;;;
     of_reply (sandbox_reply env (List.length (sandbox_calls (trace s))))) s.

(** [fs.readFileSync(path).toString("base64")] *)
Definition readFileSync (path : string) : M string :=
  fun s =>
    (record (EReadFile path) ;;;
     of_reply (fs_reply env (List.length (file_reads (trace s))))) s.

(** [client.messages.create(req)] *)
Definition messages_create (req : Request) : M Response :=
  fun s =>
    (record (EProvider req) ;;;
     of_reply (provider_reply env (List.length (provider_requests (trace s))))) s.

(** [sleep(ms)]: a timer, it cannot fail. *)
Definition sleep (ms : option number) : M unit := record (ESleep ms).

(** [for (let i = 0; i < n; i++) body] with the iteration count computed. *)
Fixpoint repeat_times (n : nat) (body : M unit) : M unit :=
  match n with
  | O => ret tt
  | S n' => body ;;; repeat_times n' body
  end.

End Environment.

(* ------------------------------------------------------------------ *)
(** ** Helpers shared by the agents *)

Definition newline : string := String (ascii_of_nat 10) EmptyString.

Definition NOT_INITIALIZED : string := "Desktop sandbox not initialized".

Definition FALLBACK : string := "Task completed. Ready for the next instruction.".

(** [JSON.stringify({ success: true })] *)
Definition success : string := JSON_stringify [("success", JTrue)].

(** [direction === "down" ? "Page_Down" : "Page_Up"] *)
Definition page_key (direction : option string) : string :=
  match direction with
  | Some d => if d =? "down" then "Page_Down" else "Page_Up"
  | None => "Page_Up"
  end.

(** [Array.isArray(msg.content) ? msg.content : [{type: "text", text: msg.content}]] *)
Definition to_entry (msg : Message) : Entry :=
  mkEntry (role msg)
    match content msg with
    | CBlocks blocks => blocks
    | CString s => [BText s]
    end.

(** [userMessage === c] for a history content [c]. *)
Definition same_content (userMessage : string) (c : Content) : bool :=
  match c with
  | CString s => userMessage =? s
  | CBlocks _ => false
  end.

(** The loop over [response.content] of [chat], with its two accumulators. *)
Fixpoint collect (blocks : list Block) (assistantMessage : string)
    (toolCalls : list ToolCall) : string * list ToolCall :=
  match blocks with
  | [] => (assistantMessage, toolCalls)
  | BText t :: rest => collect rest (assistantMessage ++ t) toolCalls
  | BToolUse id name input :: rest =>
      collect rest assistantMessage (toolCalls ++ [mkToolCall id name input])
  | _ :: rest => collect rest assistantMessage toolCalls
  end.

(** The loop over [followUpResponse.content]. *)
Fixpoint append_texts (blocks : list Block) (assistantMessage : string) : string :=
  match blocks with
  | [] => assistantMessage
  | BText t :: rest => append_texts rest (assistantMessage ++ newline ++ t)
  | _ :: rest => append_texts rest assistantMessage
  end.

(** How a [main] function ends: it runs to its end, or it calls
    [process.exit(code)]. *)
Inductive termination : Type :=
| Completed
| Exited (code : nat).

(* ------------------------------------------------------------------ *)
(** ** [class ComputerUseAgent] of [src/index.ts] *)

Module ComputerUseAgent.

Definition SYSTEM_PROMPT : string :=
"You are a computer use agent with the ability to control a desktop. You can interact with applications, navigate the screen, and perform tasks.

Available tools:
1. screenshot - Take a screenshot of the current desktop
2. click - Click at coordinates (x, y)
3. type - Type text into the currently focused element
4. key - Press a keyboard key (e.g., " ++ dquote ++ "Return" ++ dquote ++ ", " ++ dquote ++ "Tab" ++ dquote ++ ", " ++ dquote ++ "Escape" ++ dquote ++ ")
5. scroll - Scroll in a direction (" ++ dquote ++ "up" ++ dquote ++ " or " ++ dquote ++ "down" ++ dquote ++ ") for a certain amount
6. launch_app - Launch an application (e.g., " ++ dquote ++ "google-chrome" ++ dquote ++ ", " ++ dquote ++ "code" ++ dquote ++ ", " ++ dquote ++ "gedit" ++ dquote ++ ")
7. wait - Wait for a specified duration in milliseconds

When you need to interact with the computer:
1. First take a screenshot to see the current state
2. Identify what needs to be done
3. Use the appropriate tools to accomplish the task
4. Take another screenshot to verify the action
5. Repeat until the task is complete

Be methodical and describe what you're doing at each step.".

Definition FOLLOW_UP_PROMPT : string :=
  "You are a computer use agent. Continue working on the task based on the tool results.".

Section Agent.

Variable env : Env.

Definition initialize : M unit :=
  try_catch
    (sandboxId <- sandbox env Create ;;
     set_desktop (Some sandboxId))
    (fun error => throw error).

Definition takeScreenshot : M string :=
  d <- get_desktop ;;
  match d with
  | None => throw NOT_INITIALIZED
  | Some _ =>
      try_catch
        (screenshotPath <- sandbox env Screenshot ;;
         readFileSync env screenshotPath)
        (fun error => throw error)
  end.

Definition executeToolCall (toolName : string) (toolInput : ToolInput) : M string :=
  record (EExec toolName toolInput) ;;;
  d <- get_desktop ;;
  match d with
  | None => throw NOT_INITIALIZED
  | Some _ =>
      try_catch
        (if toolName =? "screenshot" then
           base64Image <- takeScreenshot ;;
           ret (JSON_stringify [("success", JTrue); ("image_base64", JString base64Image)])
         else if toolName =? "click" then
           sandbox env (Click (Math_round (ToNumber (x toolInput)))
                              (Math_round (ToNumber (y toolInput)))) ;;;
           ret success
         else if toolName =? "type" then
           sandbox env (Write (text toolInput)) ;;;
           ret success
         else if toolName =? "key" then
           sandbox env (Press (key toolInput)) ;;;
           ret success
         else if toolName =? "scroll" then
           let key := page_key (direction toolInput) in
           repeat_times (loop_count (ToNumber (amount toolInput)))
             (sandbox env (Press (Some key)) ;;; ret tt) ;;;
           ret success
         else if toolName =? "launch_app" then
           sandbox env (Launch (app toolInput)) ;;;
           sleep (Some (Num 3000)) ;;;
           ret success
         else if toolName =? "wait" then
           sleep (duration toolInput) ;;;
           ret success
         else
           ret (JSON_stringify [("error", JString ("Unknown tool: " ++ toolName))]))
        (fun errorMessage => ret (JSON_stringify [("error", JString errorMessage)]))
  end.

(** The loop [for (const toolCall of toolCalls)] of [chat]. *)
Fixpoint run_tool_calls (toolCalls : list ToolCall) (toolResults : list Block)
    : M (list Block) :=
  match toolCalls with
  | [] => ret toolResults
  | toolCall :: rest =>
      result <- executeToolCall (tc_name toolCall) (tc_input toolCall) ;;
      run_tool_calls rest (toolResults ++ [BToolResult (tc_id toolCall) result])
  end.

(** The text part of the final entry of the first request:
    [userMessage === history[history.length - 1].content ? "" : userMessage]. *)
Definition final_text (userMessage : string) (history : list Message) : M string :=
  match nth_error history (List.length history - 1) with
  | Some m => ret (if same_content userMessage (content m) then "" else userMessage)
  | None => throw "Cannot read properties of undefined (reading 'content')"
  end.

Definition first_request (history : list Message) (screenshotBase64 finalText : string)
    : Request :=
  mkRequest 4096 SYSTEM_PROMPT
    (map to_entry history ++ [mkEntry user [BImage screenshotBase64; BText finalText]]).

Definition follow_up_request (history : list Message) (toolResultsMessage : list Block)
    : Request :=
  mkRequest 4096 FOLLOW_UP_PROMPT
    (map to_entry history ++ [mkEntry user toolResultsMessage]).

Definition follow_up (response : Response) (toolResults : list Block)
    (assistantMessage : string) : M string :=
  push_history (mkMessage assistant (CBlocks (response_content response))) ;;;
  history <- get_history ;;
  followUpResponse <- messages_create env (follow_up_request history toolResults) ;;
  ret (append_texts (response_content followUpResponse) assistantMessage).

Definition chat (userMessage : string) : M string :=
  push_history (mkMessage user (CString userMessage)) ;;;
  try_catch
    (screenshotBase64 <- takeScreenshot ;;
     history <- get_history ;;
     finalText <- final_text userMessage history ;;
     response <- messages_create env (first_request history screenshotBase64 finalText) ;;
     let (assistantMessage, toolCalls) := collect (response_content response) "" [] in
     toolResults <- run_tool_calls toolCalls [] ;;
     assistantMessage <-
       (if (0 <? List.length toolCalls)%nat
        then follow_up response toolResults assistantMessage
        else ret assistantMessage) ;;
     let assistantMessage :=
       if assistantMessage =? "" then FALLBACK else assistantMessage in
     push_history (mkMessage assistant (CString assistantMessage)) ;;;
     ret assistantMessage)
    (fun error => throw error).

Definition cleanup : M unit :=
  d <- get_desktop ;;
  match d with
  | Some _ => try_catch (sandbox env Kill ;;; ret tt) (fun _ => ret tt)
  | None => ret tt
  end.

(** [main] of [src/index.ts].  [process.exit(1)] ends the process at once:
    the [finally] block is not run after it. *)
Definition TASK_1 : string :=
  "Please launch Google Chrome and search for 'Weather in San Francisco'".

Definition TASK_2 : string :=
  "Now please launch VS Code and create a new file called 'example.txt' with the content 'Hello, Computer Use Agent!'".

Definition main : M termination :=
  status <-
    try_catch
      (initialize ;;;
       chat TASK_1 ;;;
       sleep (Some (Num 5000)) ;;;
       chat TASK_2 ;;;
       ret Completed)
      (fun error => ret (Exited 1)) ;;
  match status with
  | Completed => cleanup ;;; ret Completed
  | Exited code => ret (Exited code)
  end.

End Agent.

End ComputerUseAgent.

(** [String.prototype.toLowerCase] on the letters A to Z; the other
    characters are kept (no other character lowers to a letter of "exit"). *)
Definition lower_char (c : ascii) : ascii :=
  let n := nat_of_ascii c in
  if ((65 <=? n) && (n <=? 90))%nat then ascii_of_nat (n + 32) else c.

Fixpoint toLowerCase (s : string) : string :=
  match s with
  | EmptyString => EmptyString
  | String c rest => String (lower_char c) (toLowerCase rest)
  end.

(* ------------------------------------------------------------------ *)
(** ** [class InteractiveComputerAgent]: its executor *)

Module InteractiveComputerAgent.

Section Agent.

Variable env : Env.

Definition takeScreenshot : M string :=
  d <- get_desktop ;;
  match d with
  | None => throw NOT_INITIALIZED
  | Some _ =>
      try_catch
        (screenshotPath <- sandbox env Screenshot ;;
         readFileSync env screenshotPath)
        (fun error => throw error)
  end.

(** [const { direction, amount = 3 } = toolInput] *)
Definition amount_or_default (toolInput : ToolInput) : number :=
  match amount toolInput with
  | Some a => a
  | None => Num 3
  end.

Definition executeToolCall (toolName : string) (toolInput : ToolInput) : M string :=
  record (EExec toolName toolInput) ;;;
  d <- get_desktop ;;
  match d with
  | None => throw NOT_INITIALIZED
  | Some _ =>
      try_catch
        (if toolName =? "screenshot" then
           base64Image <- takeScreenshot ;;
           ret (JSON_stringify [("success", JTrue); ("image_base64", JString base64Image)])
         else if toolName =? "click" then
           sandbox env (Click (Math_round (ToNumber (x toolInput)))
                              (Math_round (ToNumber (y toolInput)))) ;;;
           ret success
         else if toolName =? "type" then
           sandbox env (Write (text toolInput)) ;;;
           ret success
         else if toolName =? "key" then
           sandbox env (Press (key toolInput)) ;;;
           ret success
         else if toolName =? "scroll" then
           let amount := amount_or_default toolInput in
           let scrollKey := page_key (direction toolInput) in
           repeat_times (loop_count (js_or amount (Num 3)))
             (sandbox env (Press (Some scrollKey)) ;;; ret tt) ;;;
           ret success
         else if toolName =? "launch_app" then
           sandbox env (Launch (app toolInput)) ;;;
           sleep (Some (Num 3000)) ;;;
           ret success
         else if toolName =? "wait" then
           sleep (duration toolInput) ;;;
           ret success
         else
           ret (JSON_stringify [("error", JString ("Unknown tool: " ++ toolName))]))
        (fun errorMessage => ret (JSON_stringify [("error", JString errorMessage)]))
  end.

Definition SYSTEM_PROMPT : string :=
"You are a helpful computer use agent. You can interact with the desktop using provided tools.

Available tools: screenshot, click, type, key, scroll, launch_app, wait

Use tools to help accomplish the user's task. Be methodical and efficient.".

Definition initialize : M unit :=
  try_catch
    (sandboxId <- sandbox env Create ;;
     set_desktop (Some sandboxId))
    (fun error => throw error).

(** The loop [for (const toolCall of toolCalls)] of [chat]: each result is
    logged and dropped. *)
Fixpoint run_tool_calls (toolCalls : list ToolCall) : M unit :=
  match toolCalls with
  | [] => ret tt
  | toolCall :: rest =>
      executeToolCall (tc_name toolCall) (tc_input toolCall) ;;;
      run_tool_calls rest
  end.

Definition request (history : list Message) (screenshotBase64 userMessage : string)
    : Request :=
  mkRequest 2048 SYSTEM_PROMPT
    (map to_entry history ++ [mkEntry user [BImage screenshotBase64; BText userMessage]]).

Definition chat (userMessage : string) : M string :=
  push_history (mkMessage user (CString userMessage)) ;;;
  try_catch
    (screenshotBase64 <- takeScreenshot ;;
     history <- get_history ;;
     response <- messages_create env (request history screenshotBase64 userMessage) ;;
     let (fullResponse, toolCalls) := collect (response_content response) "" [] in
     (if (0 <? List.length toolCalls)%nat
      then run_tool_calls toolCalls
      else ret tt) ;;;
     push_history (mkMessage assistant (CString fullResponse)) ;;;
     ret fullResponse)
    (fun error => throw error).

Definition cleanup : M unit :=
  d <- get_desktop ;;
  match d with
  | Some _ => try_catch (sandbox env Kill ;;; ret tt) (fun _ => ret tt)
  | None => ret tt
  end.

(** [startInteractiveSession] on the lines read from standard input, in
    order: [prompt] asks for a line, handles it and asks again, until a line
    is "exit" in any letter case. *)
Fixpoint startInteractiveSession (lines : list string) : M unit :=
  match lines with
  | [] => ret tt
  | input :: rest =>
      if toLowerCase input =? "exit"
      then cleanup
      else
        try_catch (chat input ;;; ret tt) (fun error => ret tt) ;;;
        startInteractiveSession rest
  end.

End Agent.

End InteractiveComputerAgent.

(* ------------------------------------------------------------------ *)
(** ** [DesktopController.scroll] of [src/desktop-controller.ts] *)

Module DesktopController.

Section Controller.

Variable env : Env.

(** [async scroll(direction, amount = 3)] *)
Definition scroll (direction : string) (amount : option number) : M unit :=
  let amount := match amount with Some a => a | None => Num 3 end in
  let key := if direction =? "down" then "Page_Down" else "Page_Up" in
  repeat_times (loop_count amount)
    (sandbox env (Press (Some key)) ;;; sleep (Some (Num 200))).

Record ClickOptions : Type := mkClickOptions {
  click_x : number;
  click_y : number;
  button : option string;
  doubleClick : option bool
}.

Record KeyOptions : Type := mkKeyOptions {
  key_name : string;
  modifiers : option (list string)
}.

(** [async click(options)]: [button] is read and not used. *)
Definition click (options : ClickOptions) : M unit :=
  let doubleClick := match doubleClick options with Some b => b | None => false end in
  if doubleClick then
    sandbox env (Click (click_x options) (click_y options)) ;;;
    sleep (Some (Num 100)) ;;;
    sandbox env (Click (click_x options) (click_y options)) ;;;
    ret tt
  else
    sandbox env (Click (click_x options) (click_y options)) ;;;
    ret tt.

(** [async pressKey(options: KeyOptions | string)] *)
Definition pressKey (options : KeyOptions + string) : M unit :=
  let key :=
    match options with
    | inr k => k
    | inl o => key_name o
    end in
  sandbox env (Press (Some key)) ;;;
  ret tt.

(** [async pressKeys(keys)] *)
Fixpoint pressKeys (keys : list string) : M unit :=
  match keys with
  | [] => ret tt
  | key :: rest =>
      sandbox env (Press (Some key)) ;;;
      sleep (Some (Num 50)) ;;;
      pressKeys rest
  end.

(** [async launchApp(app, waitMs = 3000)] *)
Definition launchApp (app : string) (waitMs : option number) : M unit :=
  let waitMs := match waitMs with Some w => w | None => Num 3000 end in
  sandbox env (Launch (Some app)) ;;;
  sleep (Some waitMs).

(** [async wait(duration)] *)
Definition wait (duration : number) : M unit := sleep (Some duration).

(** [async drag(fromX, fromY, toX, toY)] *)
Definition drag (fromX fromY toX toY : number) : M unit :=
  click (mkClickOptions fromX fromY None None) ;;;
  sleep (Some (Num 100)) ;;;
  click (mkClickOptions toX toY None None).

End Controller.

End DesktopController.

(* ------------------------------------------------------------------ *)
(** ** [class TaskExecutor] of [src/desktop-controller.ts] *)

Module TaskExecutor.

(** [a - b] on numbers. *)
Definition js_sub (a b : number) : number :=
  match a, b with
  | Num p, Num q => Num (p - q)
  | _, _ => NaN
  end.

(** The loop of [retry] from iteration [i], with [remaining] iterations
    left. *)
Fixpoint retry_loop (action : M unit) (maxAttempts delayMs : number)
    (remaining i : nat) : M bool :=
  match remaining with
  | O => ret false
  | S remaining' =>
      try_catch
        (action ;;; ret true)
        (fun error =>
           (if js_lt (Num (inject_Z (Z.of_nat i))) (js_sub maxAttempts (Num 1))
            then DesktopController.wait delayMs
            else ret tt) ;;;
           retry_loop action maxAttempts delayMs remaining' (S i))
  end.

(** [async retry(action, maxAttempts = 3, delayMs = 1000)] *)
Definition retry (action : M unit) (maxAttempts delayMs : option number) : M bool :=
  let maxAttempts := match maxAttempts with Some m => m | None => Num 3 end in
  let delayMs := match delayMs with Some d => d | None => Num 1000 end in
  retry_loop action maxAttempts delayMs (loop_count maxAttempts) 0.

End TaskExecutor.

(* ------------------------------------------------------------------ *)
(** ** The tool catalog ([COMPUTER_TOOLS] and its helpers) *)

Module Tools.

Record Property : Type := mkProperty {
  property : string;
  type : string;
  enum : option (list string);
  property_description : string
}.

Record Tool : Type := mkTool {
  name : string;
  description : string;
  properties : list Property;
  required : list string
}.

Definition COMPUTER_TOOLS : list Tool :=
  [ mkTool "screenshot"
      "Take a screenshot of the current desktop to see what is on the screen"
      [] [];
    mkTool "click"
      "Click at specified coordinates on the screen"
      [ mkProperty "x" "number" None "The x coordinate to click at";
        mkProperty "y" "number" None "The y coordinate to click at";
        mkProperty "button" "string" (Some ["left"; "right"; "middle"])
          "Which mouse button to click (default: left)";
        mkProperty "doubleClick" "boolean" None
          "Whether to double-click (default: false)" ]
      ["x"; "y"];
    mkTool "type"
      "Type text into the currently focused element"
      [ mkProperty "text" "string" None "The text to type" ]
      ["text"];
    mkTool "key"
      "Press a keyboard key. Common keys: Return, Tab, Escape, Delete, Backspace, End, Home, Page_Up, Page_Down, etc."
      [ mkProperty "key" "string" None
          "The key to press (e.g., 'Return', 'Tab', 'Escape')" ]
      ["key"];
    mkTool "scroll"
      "Scroll the screen up or down"
      [ mkProperty "direction" "string" (Some ["up"; "down"])
          "The direction to scroll";
        mkProperty "amount" "number" None
          "How many times to scroll (default: 3)" ]
      ["direction"];
    mkTool "launch_app"
      "Launch an application on the desktop"
      [ mkProperty "app" "string"
          (Some ["google-chrome"; "code"; "firefox"; "gedit"; "terminal"])
          ("The application to launch (e.g., " ++ dquote ++ "google-chrome" ++ dquote
           ++ ", " ++ dquote ++ "code" ++ dquote ++ ", " ++ dquote ++ "firefox"
           ++ dquote ++ ")") ]
      ["app"];
    mkTool "wait"
      "Wait for a specified duration in milliseconds"
      [ mkProperty "duration" "number" None
          "The duration to wait in milliseconds" ]
      ["duration"] ].

(** [COMPUTER_TOOLS.find((tool) => tool.name === toolName)] *)
Definition getToolDefinition (toolName : string) : option Tool :=
  find (fun tool => name tool =? toolName) COMPUTER_TOOLS.

(** [COMPUTER_TOOLS.map(...)]: each tool rebuilt from its three fields. *)
Definition getToolsForAPI : list Tool :=
  map (fun tool => mkTool (name tool) (description tool) (properties tool) (required tool))
      COMPUTER_TOOLS.

End Tools.

(* ------------------------------------------------------------------ *)
(** ** Vocabulary of the statements *)

(** [io_only s s']: from [s] to [s'] the agent's fields are unchanged and the
    trace grew by events that are neither executor invocations nor provider
    requests. *)
Definition io_only (s s' : State) : Prop :=
  desktop s' = desktop s /\
  conversationHistory s' = conversationHistory s /\
  exists t, trace s' = trace s ++ t /\
            executor_calls t = [] /\ provider_requests t = [].

(** [quiet m]: every run of [m] is [io_only]. *)
Definition quiet {A} (m : M A) : Prop := forall s, io_only s (snd (m s)).

(** [total m]: [m] returns, it never throws. *)
Definition total {A} (m : M A) : Prop := forall s, exists a, fst (m s) = Ret a.

(** [executor_step name input s s']: from [s] to [s'] the trace gained one
    invocation of the executor, followed by sandbox, file and timer events
    only; the session handle and the history are unchanged. *)
Definition executor_step (name : string) (input : ToolInput) (s s' : State) : Prop :=
  desktop s' = desktop s /\
  conversationHistory s' = conversationHistory s /\
  exists t, trace s' = trace s ++ EExec name input :: t /\
            executor_calls t = [] /\ provider_requests t = [].

(** [answers toolCall block]: [block] is a tool-result block that carries
    the identifier of [toolCall]; its content is left open here, [executed]
    below pins it. *)
Definition answers (toolCall : ToolCall) (block : Block) : Prop :=
  exists result, block = BToolResult (tc_id toolCall) result.

(** What the executor is called with for [toolCall]. *)
Definition invocation (toolCall : ToolCall) : string * ToolInput :=
  (tc_name toolCall, tc_input toolCall).

(** The texts of the text blocks of a response, in order. *)
Fixpoint text_fragments (blocks : list Block) : list string :=
  match blocks with
  | [] => []
  | BText t :: rest => t :: text_fragments rest
  | _ :: rest => text_fragments rest
  end.

(** The tool-use blocks of a response, in order. *)
Fixpoint action_requests (blocks : list Block) : list ToolCall :=
  match blocks with
  | [] => []
  | BToolUse id name input :: rest => mkToolCall id name input :: action_requests rest
  | _ :: rest => action_requests rest
  end.

Definition join (l : list string) : string := fold_right append "" l.

(** The session is live and the next screenshot succeeds: the sandbox
    answers with [path] and the file read with [img]. *)
Definition screenshot_ok (env : Env) (s : State) (path img : string) : Prop :=
  (exists d, desktop s = Some d) /\
  sandbox_reply env (List.length (sandbox_calls (trace s))) = Ok path /\
  fs_reply env (List.length (file_reads (trace s))) = Ok img.

(** The reply the provider gives to the next request made from [s]. *)
Definition next_reply (env : Env) (s : State) : reply Response :=
  provider_reply env (List.length (provider_requests (trace s))).

(** The reply to the request after the next one. *)
Definition second_reply (env : Env) (s : State) : reply Response :=
  provider_reply env (S (List.length (provider_requests (trace s)))).

Definition user_turn (userMessage : string) : Message :=
  mkMessage user (CString userMessage).

Definition assistant_turn (response : Response) : Message :=
  mkMessage assistant (CBlocks (response_content response)).

Definition final_turn (assistantMessage : string) : Message :=
  mkMessage assistant (CString assistantMessage).

(** [!assistantMessage] replaced by the fallback. *)
Definition or_fallback (assistantMessage : string) : string :=
  if assistantMessage =? "" then FALLBACK else assistantMessage.

(** The first request of a turn: the history, which already ends with the
    instruction, then the screenshot with an empty text part. *)
Definition first_request_of (s : State) (userMessage img : string) : Request :=
  ComputerUseAgent.first_request
    (conversationHistory s ++ [user_turn userMessage]) img "".

(** The events of a turn up to and including its first request. *)
Definition opening (s : State) (userMessage path img : string) : list event :=
  [ESandbox Screenshot; EReadFile path; EProvider (first_request_of s userMessage img)].

(** A sandbox and a file system that always answer, and a provider whose
    first reply is [first] and whose later replies are [later]. *)
Definition demo_env (first later : list Block) : Env :=
  mkEnv (fun _ => Ok "/tmp/screenshot.png")
        (fun _ => Ok "aW1n")
        (fun n => match n with
                  | O => Ok (mkResponse first)
                  | S _ => Ok (mkResponse later)
                  end).

(** An initialized agent with an empty history. *)
Definition ready : State := mkState (Some "sbx") [] [].

Definition screenshot_request : Block := BToolUse "toolu_1" "screenshot" empty_input.

Definition click_request : Block :=
  BToolUse "toolu_2" "click"
    (mkInput (Some (Num (5 # 2))) (Some (Num (7 # 1))) None None None None None None).

(** A sandbox that is created, then terminated, and is gone afterwards. *)
Definition lifecycle_env : Env :=
  mkEnv (fun n => match n with
                  | 0%nat => Ok "sbx"
                  | 1%nat => Ok ""
                  | _ => Failed "Sandbox not found"
                  end)
        (fun _ => Ok "aW1n")
        (fun _ => Ok (mkResponse [BText "hello"])).

Definition after_cleanup : State :=
  snd (ComputerUseAgent.cleanup lifecycle_env
         (snd (ComputerUseAgent.initialize lifecycle_env new_agent))).

(** The recognized action names: the [name] fields of [COMPUTER_TOOLS]. *)
Definition COMPUTER_TOOLS : list string :=
  ["screenshot"; "click"; "type"; "key"; "scroll"; "launch_app"; "wait"].

Definition scroll_down : ToolInput :=
  mkInput None None None None (Some "down") None None None.


(* ------------------------------------------------------------------ *)
(** ** Vocabulary of the further properties *)

(** [s] with the events [t] added to its trace. *)
Definition add_events (s : State) (t : list event) : State :=
  mkState (desktop s) (conversationHistory s) (trace s ++ t).

(** The events of a live session: everything but the creation and the
    termination of the sandbox. *)
Definition session_event (e : event) : Prop :=
  match e with
  | ESandbox Create => False
  | ESandbox Kill => False
  | _ => True
  end.

(** [grows P s s']: from [s] to [s'] the session handle is unchanged, the
    history only gained entries at its end and the trace gained events that
    all satisfy [P]. *)
Definition grows (P : event -> Prop) (s s' : State) : Prop :=
  desktop s' = desktop s /\
  (exists l, conversationHistory s' = conversationHistory s ++ l) /\
  exists t, trace s' = trace s ++ t /\ Forall P t.

(** [always P m]: every run of [m] satisfies [grows P]. *)
Definition always (P : event -> Prop) {A} (m : M A) : Prop :=
  forall s, grows P s (snd (m s)).

(** The next screenshot fails with [e]: no session, a sandbox that refuses,
    or a file that cannot be read. *)
Definition screenshot_fails (env : Env) (s : State) (e : string) : Prop :=
  (desktop s = None /\ e = NOT_INITIALIZED) \/
  (exists d, desktop s = Some d) /\
  (sandbox_reply env (List.length (sandbox_calls (trace s))) = Failed e \/
   exists path,
     sandbox_reply env (List.length (sandbox_calls (trace s))) = Ok path /\
     fs_reply env (List.length (file_reads (trace s))) = Failed e).

(** The sandbox answers its next [n] calls. *)
Definition sandbox_answers (env : Env) (s : State) (n : nat) : Prop :=
  forall i, (i < n)%nat ->
    exists v, sandbox_reply env (List.length (sandbox_calls (trace s)) + i) = Ok v.

(** The sandbox and the file system answer every call. *)
Definition responsive (env : Env) : Prop :=
  (forall n, exists v, sandbox_reply env n = Ok v) /\
  (forall n, exists v, fs_reply env n = Ok v).

(** An environment for example runs: the sandbox answers its n-th call when
    [sandbox_up n], the provider its n-th request when [provider_up n]; the
    first response is [first], the later ones are [later]. *)
Definition env_with (sandbox_up provider_up : nat -> bool) (first later : list Block)
    : Env :=
  mkEnv (fun n => if sandbox_up n then Ok "/tmp/screenshot.png"
                  else Failed "sandbox unreachable")
        (fun _ => Ok "aW1n")
        (fun n => if provider_up n
                  then Ok (mkResponse match n with O => first | S _ => later end)
                  else Failed "provider unavailable").

Definition up : nat -> bool := fun _ => true.

Definition down : nat -> bool := fun _ => false.

Definition scroll_by (direction : string) (amount : Q) : ToolInput :=
  mkInput None None None None (Some direction) (Some (Num amount)) None None.

(** The sandbox refuses its next [n] calls. *)
Definition sandbox_refuses (env : Env) (s : State) (n : nat) : Prop :=
  forall i, (i < n)%nat ->
    exists e, sandbox_reply env (List.length (sandbox_calls (trace s)) + i) = Failed e.

(** [rounds n c evs]: [n] times the call [c] followed by the events [evs]. *)
Fixpoint rounds (n : nat) (c : SandboxCall) (evs : list event) : list event :=
  match n with
  | O => []
  | S n' => ESandbox c :: evs ++ rounds n' c evs
  end.

(** The state of a turn when the first response arrives: the instruction
    is in the history, and the trace holds the screenshot, the file read
    and the first request. *)
Definition at_first_reply (s : State) (userMessage path img : string) : State :=
  mkState (desktop s) (conversationHistory s ++ [user_turn userMessage])
          (trace s ++ opening s userMessage path img).

(** [executed env toolCalls s results s']: [results] are the Action Results
    of [toolCalls]: one block per request, in order, carrying the request's
    identifier and, as content, the string that [executeToolCall] returned
    for the request's name and input; the first request is executed from
    [s], each next one from the state the previous one left, the last one
    leaves [s']. *)
Inductive executed (env : Env) : list ToolCall -> State -> list Block -> State -> Prop :=
| executed_none (s : State) : executed env [] s [] s
| executed_next (toolCall : ToolCall) (rest : list ToolCall) (s s1 s2 : State)
    (result : string) (results : list Block) :
    ComputerUseAgent.executeToolCall env (tc_name toolCall) (tc_input toolCall) s
      = (Ret result, s1) ->
    executed env rest s1 results s2 ->
    executed env (toolCall :: rest) s
      (BToolResult (tc_id toolCall) result :: results) s2.


(* ------------------------------------------------------------------ *)
(** * Properties *)

(** ** Numbers *)

Lemma js_lt_loop_count (i : nat) (amount : number) :
  js_lt (Num (inject_Z (Z.of_nat i))) amount = true <-> (i < loop_count amount)%nat.
Proof.
  destruct amount as [q|]; simpl.
  - rewrite negb_true_iff.
    split; intro H.
    + assert (Hlt : (inject_Z (Z.of_nat i) < q)%Q).
      { apply Qnot_le_lt. intro Hle. apply Qle_bool_iff in Hle. congruence. }
      assert (Hc : (Z.of_nat i < Qceiling q)%Z).
      { rewrite Zlt_Qlt. eapply Qlt_le_trans; [exact Hlt | apply Qle_ceiling]. }
      lia.
    + assert (Hc : (Z.of_nat i < Qceiling q)%Z) by lia.
      destruct (Qle_bool q (inject_Z (Z.of_nat i))) eqn:E; [|reflexivity].
      apply Qle_bool_iff in E.
      exfalso.
      assert (Hc' : (Qceiling q <= Z.of_nat i)%Z).
      { replace (Z.of_nat i) with (Qceiling (inject_Z (Z.of_nat i)))
          by apply Qceiling_Z.
        apply Qceiling_resp_le. exact E. }
      lia.
  - split; [discriminate | lia].
Qed.


(** ** Observations of a trace *)

Lemma sandbox_calls_app (t u : list event) :
  sandbox_calls (t ++ u) = sandbox_calls t ++ sandbox_calls u.
Proof.
  induction t as [|e t IH]; simpl; [reflexivity|].
  destruct e; simpl; rewrite IH; reflexivity.
Qed.

Lemma provider_requests_app (t u : list event) :
  provider_requests (t ++ u) = provider_requests t ++ provider_requests u.
Proof.
  induction t as [|e t IH]; simpl; [reflexivity|].
  destruct e; simpl; rewrite IH; reflexivity.
Qed.

Lemma executor_calls_app (t u : list event) :
  executor_calls (t ++ u) = executor_calls t ++ executor_calls u.
Proof.
  induction t as [|e t IH]; simpl; [reflexivity|].
  destruct e; simpl; rewrite IH; reflexivity.
Qed.

Lemma file_reads_app (t u : list event) :
  file_reads (t ++ u) = file_reads t ++ file_reads u.
Proof.
  induction t as [|e t IH]; simpl; [reflexivity|].
  destruct e; simpl; rewrite IH; reflexivity.
Qed.

(** ** Computations that only talk to the sandbox, the file system or a timer *)

Lemma io_only_refl (s : State) : io_only s s.
Proof.
  repeat split. exists []. rewrite app_nil_r. auto.
Qed.

Lemma io_only_trans (s1 s2 s3 : State) :
  io_only s1 s2 -> io_only s2 s3 -> io_only s1 s3.
Proof.
  intros (Hd1 & Hh1 & t1 & Ht1 & He1 & Hp1) (Hd2 & Hh2 & t2 & Ht2 & He2 & Hp2).
  repeat split; try congruence.
  exists (t1 ++ t2).
  rewrite Ht2, Ht1, app_assoc, executor_calls_app, provider_requests_app, He1, He2, Hp1, Hp2.
  auto.
Qed.

Lemma quiet_ret {A} (a : A) : quiet (ret a).
Proof. intro s. apply io_only_refl. Qed.

Lemma quiet_throw {A} (msg : string) : quiet (@throw A msg).
Proof. intro s. apply io_only_refl. Qed.

Lemma quiet_of_reply {A} (r : reply A) : quiet (of_reply r).
Proof. destruct r; [apply quiet_ret | apply quiet_throw]. Qed.

Lemma quiet_get_desktop : quiet get_desktop.
Proof. intro s. apply io_only_refl. Qed.

Lemma quiet_bind {A B} (m : M A) (k : A -> M B) :
  quiet m -> (forall a, quiet (k a)) -> quiet (bind m k).
Proof.
  intros Hm Hk s. unfold bind.
  specialize (Hm s). destruct (m s) as [[a|msg] s']; simpl in *.
  - eapply io_only_trans; [exact Hm | apply Hk].
  - exact Hm.
Qed.

Lemma quiet_try_catch {A} (m : M A) (h : string -> M A) :
  quiet m -> (forall e, quiet (h e)) -> quiet (try_catch m h).
Proof.
  intros Hm Hh s. unfold try_catch.
  specialize (Hm s). destruct (m s) as [[a|msg] s']; simpl in *.
  - exact Hm.
  - eapply io_only_trans; [exact Hm | apply Hh].
Qed.

Lemma quiet_record (e : event) :
  executor_calls [e] = [] -> provider_requests [e] = [] -> quiet (record e).
Proof.
  intros He Hp s. repeat split. exists [e]. auto.
Qed.

Lemma quiet_sandbox (env : Env) (c : SandboxCall) : quiet (sandbox env c).
Proof.
  intro s. unfold sandbox.
  apply (quiet_bind (record (ESandbox c))); [apply quiet_record; reflexivity|].
  intros _. apply quiet_of_reply.
Qed.

Lemma quiet_readFileSync (env : Env) (path : string) : quiet (readFileSync env path).
Proof.
  intro s. unfold readFileSync.
  apply (quiet_bind (record (EReadFile path))); [apply quiet_record; reflexivity|].
  intros _. apply quiet_of_reply.
Qed.

Lemma quiet_sleep (ms : option number) : quiet (sleep ms).
Proof. apply quiet_record; reflexivity. Qed.

Lemma quiet_repeat_times (n : nat) (body : M unit) :
  quiet body -> quiet (repeat_times n body).
Proof.
  intro Hb. induction n as [|n IH]; simpl.
  - apply quiet_ret.
  - apply quiet_bind; auto.
Qed.

Lemma total_ret {A} (a : A) : total (ret a).
Proof. intro s. exists a. reflexivity. Qed.

Lemma total_try_catch {A} (m : M A) (h : string -> M A) :
  (forall e, total (h e)) -> total (try_catch m h).
Proof.
  intros Hh s. unfold try_catch.
  destruct (m s) as [[a|msg] s'].
  - exists a. reflexivity.
  - apply Hh.
Qed.

Create HintDb agent.

#[local] Hint Resolve quiet_ret quiet_throw quiet_get_desktop quiet_sandbox
  quiet_readFileSync quiet_sleep quiet_repeat_times total_ret : agent.
#[local] Hint Extern 2 (quiet (bind _ _)) => apply quiet_bind; [|intro] : agent.
#[local] Hint Extern 2 (quiet (try_catch _ _)) => apply quiet_try_catch; [|intro] : agent.
#[local] Hint Extern 3 (quiet (if ?b then _ else _)) => destruct b : agent.
#[local] Hint Extern 3 (quiet (match ?d with Some _ => _ | None => _ end)) =>
  destruct d : agent.

(** ** The executors *)

Lemma quiet_takeScreenshot (env : Env) : quiet (ComputerUseAgent.takeScreenshot env).
Proof.
  unfold ComputerUseAgent.takeScreenshot.
  apply quiet_bind; [auto with agent|].
  intros [d|]; auto 10 with agent.
Qed.

Lemma quiet_takeScreenshot_interactive (env : Env) :
  quiet (InteractiveComputerAgent.takeScreenshot env).
Proof.
  unfold InteractiveComputerAgent.takeScreenshot.
  apply quiet_bind; [auto with agent|].
  intros [d|]; auto 10 with agent.
Qed.

#[local] Hint Resolve quiet_takeScreenshot quiet_takeScreenshot_interactive : agent.

Lemma bind_record {B} (e : event) (k : unit -> M B) (s : State) :
  bind (record e) k s =
  k tt (mkState (desktop s) (conversationHistory s) (trace s ++ [e])).
Proof. reflexivity. Qed.

Lemma bind_get_desktop {B} (k : option string -> M B) (s : State) :
  bind get_desktop k s = k (desktop s) s.
Proof. reflexivity. Qed.

Lemma bind_get_history {B} (k : list Message -> M B) (s : State) :
  bind get_history k s = k (conversationHistory s) s.
Proof. reflexivity. Qed.

Lemma bind_push_history {B} (m : Message) (k : unit -> M B) (s : State) :
  bind (push_history m) k s =
  k tt (mkState (desktop s) (conversationHistory s ++ [m]) (trace s)).
Proof. reflexivity. Qed.

Lemma bind_run {A B} (m : M A) (k : A -> M B) (s s' : State) (a : A) :
  m s = (Ret a, s') -> bind m k s = k a s'.
Proof. intro H. unfold bind. rewrite H. reflexivity. Qed.

Lemma bind_run_throw {A B} (m : M A) (k : A -> M B) (s s' : State) (e : string) :
  m s = (Throw e, s') -> bind m k s = (Throw e, s').
Proof. intro H. unfold bind. rewrite H. reflexivity. Qed.

(** A [try] block whose handler returns: the whole statement returns. *)
Lemma guarded_run {A} (m : M A) (h : string -> M A) (s : State) :
  quiet m -> (forall e, quiet (h e)) -> (forall e, total (h e)) ->
  exists r s', try_catch m h s = (Ret r, s') /\ io_only s s'.
Proof.
  intros Hm Hq Ht.
  pose proof (quiet_try_catch m h Hm Hq s) as Hio.
  destruct (total_try_catch m h Ht s) as [r Hr].
  destruct (try_catch m h s) as [o s'] eqn:E. simpl in *. subst o.
  exists r, s'. auto.
Qed.

Lemma io_only_after_exec (name : string) (input : ToolInput) (s s' : State)
    (d : option string) :
  desktop s = d ->
  io_only (mkState d (conversationHistory s) (trace s ++ [EExec name input])) s' ->
  executor_step name input s s'.
Proof.
  intros <- (Hd & Hh & t & Ht & He & Hp). simpl in *.
  repeat split; auto.
  exists t. rewrite Ht, <- app_assoc. auto.
Qed.

(** On an initialized agent the executor always returns. *)
Lemma executeToolCall_initialized (env : Env) (name : string) (input : ToolInput)
    (s : State) (d : string) :
  desktop s = Some d ->
  exists r s',
    ComputerUseAgent.executeToolCall env name input s = (Ret r, s') /\
    executor_step name input s s'.
Proof.
  intro Hd. unfold ComputerUseAgent.executeToolCall.
  rewrite bind_record, bind_get_desktop. cbn [desktop]. rewrite Hd.
  match goal with
  | |- context [try_catch ?m ?h ?s1] =>
      destruct (guarded_run m h s1) as (r & s' & Hrun & Hio)
  end.
  - auto 15 with agent.
  - intro; auto with agent.
  - intro; auto with agent.
  - exists r, s'. split; [exact Hrun|]. eapply io_only_after_exec; eauto.
Qed.

Lemma executeToolCall_interactive_initialized (env : Env) (name : string)
    (input : ToolInput) (s : State) (d : string) :
  desktop s = Some d ->
  exists r s',
    InteractiveComputerAgent.executeToolCall env name input s = (Ret r, s') /\
    executor_step name input s s'.
Proof.
  intro Hd. unfold InteractiveComputerAgent.executeToolCall.
  rewrite bind_record, bind_get_desktop. cbn [desktop]. rewrite Hd.
  match goal with
  | |- context [try_catch ?m ?h ?s1] =>
      destruct (guarded_run m h s1) as (r & s' & Hrun & Hio)
  end.
  - auto 15 with agent.
  - intro; auto with agent.
  - intro; auto with agent.
  - exists r, s'. split; [exact Hrun|]. eapply io_only_after_exec; eauto.
Qed.

(** ** The tool loop of [chat] *)

Lemma run_tool_calls_initialized (env : Env) (toolCalls : list ToolCall) :
  forall (toolResults : list Block) (s : State) (d : string),
    desktop s = Some d ->
    exists results s',
      ComputerUseAgent.run_tool_calls env toolCalls toolResults s
        = (Ret (toolResults ++ results), s') /\
      (Forall2 answers toolCalls results /\ executed env toolCalls s results s') /\
      desktop s' = desktop s /\
      conversationHistory s' = conversationHistory s /\
      exists t, trace s' = trace s ++ t /\
                executor_calls t = map invocation toolCalls /\
                provider_requests t = [].
Proof.
  induction toolCalls as [|tc rest IH]; intros acc s d Hd; simpl.
  - exists [], s. rewrite app_nil_r.
    split; [reflexivity|]. split; [split; constructor|].
    repeat split; auto.
    exists []. rewrite app_nil_r. auto.
  - destruct (executeToolCall_initialized env (tc_name tc) (tc_input tc) s d Hd)
      as (r & s1 & Hrun & Hd1 & Hh1 & t1 & Ht1 & He1 & Hp1).
    rewrite (bind_run _ _ _ _ _ Hrun).
    destruct (IH (acc ++ [BToolResult (tc_id tc) r]) s1 d) as
      (rs & s2 & Hrun2 & [Hans Hexec] & Hd2 & Hh2 & t2 & Ht2 & He2 & Hp2);
      [congruence|].
    exists (BToolResult (tc_id tc) r :: rs), s2.
    rewrite Hrun2, <- app_assoc. simpl.
    split; [reflexivity|]. split.
    { split.
      - constructor; [exists r; reflexivity | exact Hans].
      - eapply executed_next; [exact Hrun | exact Hexec]. }
    split; [congruence|]. split; [congruence|].
    exists ((EExec (tc_name tc) (tc_input tc) :: t1) ++ t2).
    rewrite Ht2, Ht1, <- app_assoc, executor_calls_app, provider_requests_app.
    simpl. rewrite He1, He2, Hp1, Hp2. auto.
Qed.

(** ** Reading a response *)

Lemma append_nil_r (s : string) : (s ++ "")%string = s.
Proof. induction s as [|c s IH]; simpl; [reflexivity | rewrite IH; reflexivity]. Qed.

Lemma append_assoc (a b c : string) : ((a ++ b) ++ c = a ++ (b ++ c))%string.
Proof. induction a as [|ch a IH]; simpl; [reflexivity | rewrite IH; reflexivity]. Qed.

Lemma collect_spec (blocks : list Block) :
  forall (assistantMessage : string) (toolCalls : list ToolCall),
    collect blocks assistantMessage toolCalls =
    ((assistantMessage ++ join (text_fragments blocks))%string,
     toolCalls ++ action_requests blocks).
Proof.
  induction blocks as [|b rest IH]; intros m tcs; simpl.
  - rewrite append_nil_r, app_nil_r. reflexivity.
  - destruct b; simpl; rewrite IH; try reflexivity.
    + rewrite append_assoc. reflexivity.
    + rewrite <- app_assoc. reflexivity.
Qed.

Lemma append_texts_spec (blocks : list Block) :
  forall assistantMessage : string,
    append_texts blocks assistantMessage =
    (assistantMessage ++ join (map (append newline) (text_fragments blocks)))%string.
Proof.
  induction blocks as [|b rest IH]; intro m; simpl.
  - rewrite append_nil_r. reflexivity.
  - destruct b; simpl; rewrite IH; try reflexivity.
    rewrite !append_assoc. reflexivity.
Qed.

(** ** One turn of [chat] *)

Lemma try_catch_rethrow {A} (m : M A) (s : State) :
  try_catch m (fun error => throw error) s = m s.
Proof.
  unfold try_catch. destruct (m s) as [[a|e] s']; reflexivity.
Qed.

Lemma sandbox_run (env : Env) (c : SandboxCall) (s : State) :
  sandbox env c s =
  of_reply (sandbox_reply env (List.length (sandbox_calls (trace s))))
    (mkState (desktop s) (conversationHistory s) (trace s ++ [ESandbox c])).
Proof. reflexivity. Qed.

Lemma readFileSync_run (env : Env) (path : string) (s : State) :
  readFileSync env path s =
  of_reply (fs_reply env (List.length (file_reads (trace s))))
    (mkState (desktop s) (conversationHistory s) (trace s ++ [EReadFile path])).
Proof. reflexivity. Qed.

Lemma messages_create_run (env : Env) (req : Request) (s : State) :
  messages_create env req s =
  of_reply (next_reply env s)
    (mkState (desktop s) (conversationHistory s) (trace s ++ [EProvider req])).
Proof. reflexivity. Qed.

Lemma takeScreenshot_ok (env : Env) (s : State) (path img : string) :
  screenshot_ok env s path img ->
  ComputerUseAgent.takeScreenshot env s =
  (Ret img, mkState (desktop s) (conversationHistory s)
                    (trace s ++ [ESandbox Screenshot; EReadFile path])).
Proof.
  intros ([d Hd] & Hs & Hf). unfold ComputerUseAgent.takeScreenshot.
  rewrite bind_get_desktop, Hd, try_catch_rethrow.
  erewrite bind_run; [|rewrite sandbox_run, Hs; reflexivity].
  rewrite readFileSync_run. cbn [trace desktop conversationHistory].
  rewrite file_reads_app. simpl file_reads. rewrite app_nil_r, Hf, <- app_assoc, Hd.
  reflexivity.
Qed.

(** A screenshot that returns was taken on a live session, from a sandbox
    and a file system that both answered. *)
Lemma takeScreenshot_returns (env : Env) (s s' : State) (img : string) :
  ComputerUseAgent.takeScreenshot env s = (Ret img, s') ->
  exists path, screenshot_ok env s path img.
Proof.
  unfold ComputerUseAgent.takeScreenshot.
  rewrite bind_get_desktop. destruct (desktop s) as [d|] eqn:Hd; [|discriminate].
  rewrite try_catch_rethrow. unfold bind. rewrite sandbox_run.
  destruct (sandbox_reply env _) as [path|e] eqn:Hs; simpl; [|discriminate].
  rewrite readFileSync_run. cbn [trace desktop conversationHistory].
  rewrite file_reads_app. simpl file_reads. rewrite app_nil_r.
  destruct (fs_reply env _) as [data|e] eqn:Hf; simpl; [|discriminate].
  intro H. injection H as <- _.
  exists path. repeat split; eauto.
Qed.

Lemma final_text_pushed (userMessage : string) (history : list Message) (s : State) :
  ComputerUseAgent.final_text userMessage (history ++ [user_turn userMessage]) s
  = (Ret "", s).
Proof.
  unfold ComputerUseAgent.final_text.
  rewrite length_app. cbn [List.length].
  replace (List.length history + 1 - 1)%nat with (List.length history) by lia.
  rewrite nth_error_app2 by lia. rewrite Nat.sub_diag. simpl.
  rewrite String.eqb_refl. reflexivity.
Qed.

Lemma messages_create_ok (env : Env) (req : Request) (s : State) (resp : Response) :
  next_reply env s = Ok resp ->
  messages_create env req s =
  (Ret resp, mkState (desktop s) (conversationHistory s) (trace s ++ [EProvider req])).
Proof. intro H. rewrite messages_create_run, H. reflexivity. Qed.

Lemma messages_create_failed (env : Env) (req : Request) (s : State) (e : string) :
  next_reply env s = Failed e ->
  messages_create env req s =
  (Throw e, mkState (desktop s) (conversationHistory s) (trace s ++ [EProvider req])).
Proof. intro H. rewrite messages_create_run, H. reflexivity. Qed.

(** Runs [chat] up to the reply to its first request. *)
Ltac chat_to_first_reply Hok :=
  unfold ComputerUseAgent.chat;
  rewrite bind_push_history, try_catch_rethrow;
  erewrite bind_run; [|apply takeScreenshot_ok; exact Hok];
  rewrite bind_get_history; cbn [conversationHistory desktop trace];
  erewrite bind_run; [|apply final_text_pushed].

Lemma chat_provider_failed (env : Env) (userMessage : string) (s : State)
    (path img e : string) :
  screenshot_ok env s path img ->
  next_reply env s = Failed e ->
  ComputerUseAgent.chat env userMessage s =
  (Throw e,
   mkState (desktop s) (conversationHistory s ++ [user_turn userMessage])
           (trace s ++ opening s userMessage path img)).
Proof.
  intros Hok Hreply. chat_to_first_reply Hok.
  erewrite bind_run_throw.
  2:{ apply messages_create_failed. unfold next_reply in *.
      cbn [trace]. rewrite provider_requests_app. simpl. rewrite app_nil_r.
      exact Hreply. }
  cbn [conversationHistory desktop trace]. rewrite <- app_assoc. reflexivity.
Qed.

Lemma chat_no_actions (env : Env) (userMessage : string) (s : State)
    (path img : string) (response : Response) :
  screenshot_ok env s path img ->
  next_reply env s = Ok response ->
  action_requests (response_content response) = [] ->
  let out := or_fallback (join (text_fragments (response_content response))) in
  ComputerUseAgent.chat env userMessage s =
  (Ret out,
   mkState (desktop s)
           (conversationHistory s ++ [user_turn userMessage; final_turn out])
           (trace s ++ opening s userMessage path img)).
Proof.
  intros Hok Hreply Hnone out. chat_to_first_reply Hok.
  erewrite bind_run.
  2:{ apply messages_create_ok. unfold next_reply in *.
      cbn [trace]. rewrite provider_requests_app. simpl. rewrite app_nil_r.
      exact Hreply. }
  rewrite collect_spec, Hnone. simpl.
  unfold bind, ret, push_history. simpl.
  rewrite <- !app_assoc. reflexivity.
Qed.

Lemma follow_up_ok (env : Env) (response followUpResponse : Response)
    (toolResults : list Block) (assistantMessage : string) (s : State) :
  next_reply env s = Ok followUpResponse ->
  ComputerUseAgent.follow_up env response toolResults assistantMessage s =
  (Ret (append_texts (response_content followUpResponse) assistantMessage),
   mkState (desktop s) (conversationHistory s ++ [assistant_turn response])
     (trace s ++
      [EProvider (ComputerUseAgent.follow_up_request
                    (conversationHistory s ++ [assistant_turn response]) toolResults)])).
Proof.
  intro H. unfold ComputerUseAgent.follow_up.
  rewrite bind_push_history, bind_get_history.
  erewrite bind_run; [|apply messages_create_ok; exact H]. reflexivity.
Qed.

Lemma follow_up_failed (env : Env) (response : Response)
    (toolResults : list Block) (assistantMessage e : string) (s : State) :
  next_reply env s = Failed e ->
  ComputerUseAgent.follow_up env response toolResults assistantMessage s =
  (Throw e,
   mkState (desktop s) (conversationHistory s ++ [assistant_turn response])
     (trace s ++
      [EProvider (ComputerUseAgent.follow_up_request
                    (conversationHistory s ++ [assistant_turn response]) toolResults)])).
Proof.
  intro H. unfold ComputerUseAgent.follow_up.
  rewrite bind_push_history, bind_get_history.
  erewrite bind_run_throw; [|apply messages_create_failed; exact H]. reflexivity.
Qed.

Lemma chat_with_actions (env : Env) (userMessage : string) (s : State)
    (path img : string) (response : Response) :
  screenshot_ok env s path img ->
  next_reply env s = Ok response ->
  action_requests (response_content response) <> [] ->
  exists results t,
    (Forall2 answers (action_requests (response_content response)) results /\
     executed env (action_requests (response_content response))
       (at_first_reply s userMessage path img) results
       (add_events (at_first_reply s userMessage path img) t)) /\
    executor_calls t = map invocation (action_requests (response_content response)) /\
    provider_requests t = [] /\
    let history := conversationHistory s ++ [user_turn userMessage; assistant_turn response] in
    let events :=
      trace s ++ opening s userMessage path img ++ t ++
      [EProvider (ComputerUseAgent.follow_up_request history results)] in
    match second_reply env s with
    | Ok followUpResponse =>
        let out :=
          or_fallback (append_texts (response_content followUpResponse)
                         (join (text_fragments (response_content response)))) in
        ComputerUseAgent.chat env userMessage s =
        (Ret out, mkState (desktop s) (history ++ [final_turn out]) events)
    | Failed e =>
        ComputerUseAgent.chat env userMessage s =
        (Throw e, mkState (desktop s) history events)
    end.
Proof.
  intros Hok Hreply Hsome.
  destruct Hok as ([d Hd] & Hshot).
  set (s1 := mkState (desktop s) (conversationHistory s ++ [user_turn userMessage])
               ((trace s ++ [ESandbox Screenshot; EReadFile path]) ++
                [EProvider (first_request_of s userMessage img)])).
  destruct (run_tool_calls_initialized env
              (action_requests (response_content response)) [] s1 d Hd)
    as (results & s2 & Hrun & [Hans Hexec] & Hd2 & Hh2 & t & Ht & He & Hp).
  assert (Hs1 : s1 = at_first_reply s userMessage path img).
  { unfold s1, at_first_reply, opening. rewrite <- app_assoc. reflexivity. }
  assert (Hs2 : s2 = add_events (at_first_reply s userMessage path img) t).
  { rewrite <- Hs1. destruct s2. unfold add_events. simpl in *. congruence. }
  rewrite Hs1, Hs2 in Hexec.
  exists results, t.
  split; [split; [exact Hans | exact Hexec]|].
  split; [exact He|]. split; [exact Hp|].
  assert (Hok : screenshot_ok env s path img) by (split; eauto).
  assert (Hsecond : next_reply env s2 = second_reply env s).
  { unfold next_reply, second_reply. rewrite Ht. unfold s1. cbn [trace].
    rewrite !provider_requests_app, Hp. simpl. rewrite !app_nil_r, length_app.
    simpl. f_equal. lia. }
  assert (Hlen : (0 <? List.length (action_requests (response_content response)))%nat = true).
  { destruct (action_requests (response_content response)); [congruence | reflexivity]. }
  cbv zeta.
  destruct (second_reply env s) as [followUp|e] eqn:Hfollow.
  - chat_to_first_reply Hok.
    erewrite bind_run.
    2:{ apply messages_create_ok. unfold next_reply in *.
        cbn [trace]. rewrite provider_requests_app. simpl. rewrite app_nil_r.
        exact Hreply. }
    rewrite collect_spec. cbn [conversationHistory desktop trace].
    fold s1. erewrite bind_run; [|exact Hrun].
    cbn [Datatypes.app append]. rewrite Hlen.
    erewrite bind_run; [|apply follow_up_ok; exact Hsecond].
    unfold bind, ret, push_history. cbn [conversationHistory desktop trace].
    rewrite Hd2, Hh2, Ht. unfold s1. cbn [conversationHistory desktop trace].
    unfold opening. rewrite <- !app_assoc. reflexivity.
  - chat_to_first_reply Hok.
    erewrite bind_run.
    2:{ apply messages_create_ok. unfold next_reply in *.
        cbn [trace]. rewrite provider_requests_app. simpl. rewrite app_nil_r.
        exact Hreply. }
    rewrite collect_spec. cbn [conversationHistory desktop trace].
    fold s1. erewrite bind_run; [|exact Hrun].
    cbn [Datatypes.app append]. rewrite Hlen.
    erewrite bind_run_throw; [|apply follow_up_failed; exact Hsecond].
    cbn [conversationHistory desktop trace].
    rewrite Hd2, Hh2, Ht. unfold s1. cbn [conversationHistory desktop trace].
    unfold opening. rewrite <- !app_assoc. reflexivity.
Qed.

(** A turn that returns took its screenshot and got its first reply. *)
Lemma chat_returns (env : Env) (userMessage out : string) (s s' : State) :
  ComputerUseAgent.chat env userMessage s = (Ret out, s') ->
  exists path img response,
    screenshot_ok env s path img /\ next_reply env s = Ok response.
Proof.
  intro H.
  assert (Hshot : exists path img, screenshot_ok env s path img).
  { revert H. unfold ComputerUseAgent.chat.
    rewrite bind_push_history, try_catch_rethrow.
    match goal with
    | |- context [bind (ComputerUseAgent.takeScreenshot env) ?k ?s1] =>
        destruct (ComputerUseAgent.takeScreenshot env s1) as [[img|e] s2] eqn:E
    end.
    - intros _. destruct (takeScreenshot_returns _ _ _ _ E) as [path Hok].
      exists path, img. exact Hok.
    - erewrite bind_run_throw; [|exact E]. discriminate. }
  destruct Hshot as (path & img & Hok).
  destruct (next_reply env s) as [response|e] eqn:Hreply.
  - exists path, img, response. auto.
  - rewrite (chat_provider_failed env userMessage s path img e Hok Hreply) in H.
    discriminate.
Qed.

(** The executor invocations and the completion requests of a turn whose
    first request was answered. *)
Lemma chat_calls (env : Env) (userMessage : string) (s : State)
    (path img : string) (response : Response) :
  screenshot_ok env s path img ->
  next_reply env s = Ok response ->
  let requests := action_requests (response_content response) in
  let s' := snd (ComputerUseAgent.chat env userMessage s) in
  executor_calls (trace s') = executor_calls (trace s) ++ map invocation requests /\
  (requests = [] ->
     provider_requests (trace s') =
       provider_requests (trace s) ++ [first_request_of s userMessage img]) /\
  (requests <> [] ->
     exists t followUp,
       trace s' = trace s ++ opening s userMessage path img ++ t ++ [EProvider followUp] /\
       executor_calls t = map invocation requests /\
       provider_requests t = [] /\
       provider_requests (trace s') =
         provider_requests (trace s) ++ [first_request_of s userMessage img; followUp]).
Proof.
  intros Hok Hreply requests s'.
  subst s'. destruct requests as [|r rs] eqn:Hreq.
  - pose proof (chat_no_actions env userMessage s path img response Hok Hreply Hreq) as Hrun.
    cbv zeta in Hrun. rewrite Hrun. cbn [snd trace].
    rewrite executor_calls_app, provider_requests_app. simpl. rewrite app_nil_r.
    repeat split; auto. intro H. congruence.
  - assert (Hsome : action_requests (response_content response) <> []).
    { fold requests. rewrite Hreq. discriminate. }
    destruct (chat_with_actions env userMessage s path img response Hok Hreply Hsome)
      as (results & t & _ & He & Hp & Hrun).
    cbv zeta in Hrun. fold requests in He. rewrite Hreq in He.
    assert (Htrace : trace (snd (ComputerUseAgent.chat env userMessage s)) =
      trace s ++ opening s userMessage path img ++ t ++
      [EProvider (ComputerUseAgent.follow_up_request
         (conversationHistory s ++ [user_turn userMessage; assistant_turn response])
         results)]).
    { destruct (second_reply env s); rewrite Hrun; reflexivity. }
    rewrite Htrace.
    rewrite !executor_calls_app, !provider_requests_app, He, Hp. simpl.
    rewrite app_nil_r.
    repeat split; auto; try discriminate.
    intros _. exists t. eexists. repeat split; eauto.
Qed.

(* ------------------------------------------------------------------ *)
(** * The claims *)

(** ** Example runs *)

Lemma demo_screenshot_ok (first later : list Block) :
  screenshot_ok (demo_env first later) ready "/tmp/screenshot.png" "aW1n".
Proof. split; [exists "sbx"; reflexivity | split; reflexivity]. Defined.

(** ** C1 *)

(** C1 (as the code has it): when the first response of a turn contains at
    least one action request, the assistant turn holding the requests is
    appended to the history before the follow-up request is issued; the
    Action Results are not appended to the history: they form the final
    user-role entry of the follow-up request.  These results are one block
    per request, in the order of the response, each carrying the request's
    identifier and the string the executor returned for that request, the
    requests being executed one after the other from the state in which the
    first response arrived.  After the turn the history is the old one
    followed by the instruction, the assistant turn and, when the follow-up
    succeeded, the final assistant text. *)
Theorem chat_results_travel_in_follow_up (env : Env) (userMessage : string)
    (s : State) (path img : string) (response : Response) :
  screenshot_ok env s path img ->
  next_reply env s = Ok response ->
  action_requests (response_content response) <> [] ->
  let run := ComputerUseAgent.chat env userMessage s in
  let history :=
    conversationHistory s ++ [user_turn userMessage; assistant_turn response] in
  let start := at_first_reply s userMessage path img in
  exists results t,
    executed env (action_requests (response_content response)) start results
      (add_events start t) /\
    provider_requests t = [] /\
    trace (snd run) =
      trace s ++ opening s userMessage path img ++ t ++
      [EProvider (mkRequest 4096 ComputerUseAgent.FOLLOW_UP_PROMPT
                    (map to_entry history ++ [mkEntry user results]))] /\
    match second_reply env s with
    | Ok _ => exists out,
        fst run = Ret out /\
        conversationHistory (snd run) = history ++ [final_turn out]
    | Failed e =>
        fst run = Throw e /\ conversationHistory (snd run) = history
    end.
Proof.
  intros Hok Hreply Hsome run history start.
  destruct (chat_with_actions env userMessage s path img response Hok Hreply Hsome)
    as (results & t & [_ Hexec] & _ & Hp & Hrun).
  exists results, t. cbv zeta in Hrun. subst run start.
  split; [exact Hexec|]. split; [exact Hp|].
  destruct (second_reply env s) as [followUp|e]; rewrite Hrun; simpl.
  - split; [reflexivity|]. eexists. split; reflexivity.
  - split; [reflexivity|]. split; reflexivity.
Qed.

Lemma chat_results_travel_in_follow_up_witness :
  let env := demo_env [screenshot_request] [BText "done"] in
  let run := ComputerUseAgent.chat env "take a screenshot" ready in
  let start := at_first_reply ready "take a screenshot" "/tmp/screenshot.png" "aW1n" in
  exists results t,
    executed env [mkToolCall "toolu_1" "screenshot" empty_input] start results
      (add_events start t) /\
    provider_requests t = [] /\
    trace (snd run) =
      trace ready ++ opening ready "take a screenshot" "/tmp/screenshot.png" "aW1n" ++ t ++
      [EProvider (mkRequest 4096 ComputerUseAgent.FOLLOW_UP_PROMPT
                    (map to_entry
                       ([] ++ [user_turn "take a screenshot";
                               assistant_turn (mkResponse [screenshot_request])]) ++
                     [mkEntry user results]))] /\
    exists out,
      fst run = Ret out /\
      conversationHistory (snd run) =
        ([] ++ [user_turn "take a screenshot";
                assistant_turn (mkResponse [screenshot_request])]) ++ [final_turn out].
Proof.
  apply (chat_results_travel_in_follow_up
           (demo_env [screenshot_request] [BText "done"]) "take a screenshot" ready
           "/tmp/screenshot.png" "aW1n" (mkResponse [screenshot_request])).
  - apply demo_screenshot_ok.
  - reflexivity.
  - simpl. discriminate.
Defined.

(** The results are determined by the requests and the state they are
    executed from: for one screenshot request, the block sent carries its
    identifier and the serialized success object holding the image. *)
Example executed_screenshot_request :
  forall results s',
    executed (demo_env [screenshot_request] [BText "done"])
      [mkToolCall "toolu_1" "screenshot" empty_input]
      (at_first_reply ready "take a screenshot" "/tmp/screenshot.png" "aW1n")
      results s' ->
    results =
      [BToolResult "toolu_1"
         (JSON_stringify [("success", JTrue); ("image_base64", JString "aW1n")])].
Proof.
  intros results s' H.
  inversion H as [|tc rest s0 s1 s2 result rs Hrun Hrest]; subst.
  inversion Hrest; subst.
  vm_compute in Hrun. injection Hrun as <- _. reflexivity.
Qed.

(** C1 fails as stated: after a turn with one action request the history
    holds the instruction, the assistant turn with the request and the final
    assistant text; no user turn of results was appended. *)
Lemma chat_appends_no_results_turn :
  let run := ComputerUseAgent.chat (demo_env [screenshot_request] [BText "done"])
               "take a screenshot" ready in
  conversationHistory (snd run) =
    [user_turn "take a screenshot";
     assistant_turn (mkResponse [screenshot_request]);
     final_turn (newline ++ "done")] /\
  ~ (exists results, In (mkMessage user (CBlocks results)) (conversationHistory (snd run))).
Proof.
  split; [reflexivity|].
  intros [results Hin]. vm_compute in Hin.
  destruct Hin as [H|[H|[H|[]]]]; discriminate H.
Qed.

(** ** C2 *)

(** C2: in a turn whose first response contains k action requests, the
    executor is invoked exactly k times, on the requests in the order of the
    response.  When k = 0 the first request is the only completion request of
    the turn.  When k >= 1 all invocations come after the first request and
    before exactly one more completion request, the follow-up, which is the
    last event of the turn; whatever the second response contains, nothing
    is executed for it. *)
Theorem chat_executor_and_provider_calls (env : Env) (userMessage : string)
    (s : State) (path img : string) (response : Response) :
  screenshot_ok env s path img ->
  next_reply env s = Ok response ->
  let requests := action_requests (response_content response) in
  let s' := snd (ComputerUseAgent.chat env userMessage s) in
  executor_calls (trace s') = executor_calls (trace s) ++ map invocation requests /\
  List.length (executor_calls (trace s')) =
    (List.length (executor_calls (trace s)) + List.length requests)%nat /\
  (requests = [] ->
     provider_requests (trace s') =
       provider_requests (trace s) ++ [first_request_of s userMessage img]) /\
  (requests <> [] ->
     exists t followUp,
       trace s' = trace s ++ opening s userMessage path img ++ t ++ [EProvider followUp] /\
       executor_calls t = map invocation requests /\
       provider_requests t = [] /\
       provider_requests (trace s') =
         provider_requests (trace s) ++ [first_request_of s userMessage img; followUp]).
Proof.
  intros Hok Hreply requests s'.
  destruct (chat_calls env userMessage s path img response Hok Hreply)
    as (Hexec & Hnone & Hsome).
  repeat split; auto.
  subst s'. rewrite Hexec, length_app, length_map. reflexivity.
Qed.

(** The second response of this run asks for a click; only the screenshot
    requested by the first response is executed. *)
Lemma chat_executor_and_provider_calls_witness :
  let env := demo_env [screenshot_request] [BText "done"; click_request] in
  let s' := snd (ComputerUseAgent.chat env "take a screenshot" ready) in
  executor_calls (trace s') = [] ++ [("screenshot", empty_input)] /\
  List.length (executor_calls (trace s')) = 1%nat /\
  List.length (provider_requests (trace s')) = 2%nat.
Proof.
  intros env s'.
  destruct (chat_executor_and_provider_calls env "take a screenshot" ready
              "/tmp/screenshot.png" "aW1n" (mkResponse [screenshot_request]))
    as (Hexec & Hlen & _ & Hsome).
  - apply demo_screenshot_ok.
  - reflexivity.
  - split; [exact Hexec|]. split; [exact Hlen|].
    destruct Hsome as (t & followUp & _ & _ & _ & Hp); [simpl; discriminate|].
    subst s'. rewrite Hp. reflexivity.
Defined.

(** ** C3 *)

(** C3: a turn that returns got a first response; the history has grown by
    exactly 2 entries when that response contains no action request and by
    exactly 3 entries when it contains at least one. *)
Theorem chat_history_growth (env : Env) (userMessage out : string) (s s' : State) :
  ComputerUseAgent.chat env userMessage s = (Ret out, s') ->
  exists response,
    next_reply env s = Ok response /\
    List.length (conversationHistory s') =
      (List.length (conversationHistory s) +
       match action_requests (response_content response) with
       | [] => 2
       | _ :: _ => 3
       end)%nat.
Proof.
  intro Hrun.
  destruct (chat_returns env userMessage out s s' Hrun)
    as (path & img & response & Hok & Hreply).
  exists response. split; [exact Hreply|].
  destruct (action_requests (response_content response)) as [|r rs] eqn:Hreq.
  - pose proof (chat_no_actions env userMessage s path img response Hok Hreply Hreq) as H.
    cbv zeta in H. rewrite H in Hrun. injection Hrun as _ <-.
    cbn [conversationHistory]. rewrite length_app. reflexivity.
  - assert (Hsome : action_requests (response_content response) <> [])
      by (rewrite Hreq; discriminate).
    destruct (chat_with_actions env userMessage s path img response Hok Hreply Hsome)
      as (results & t & _ & _ & _ & H).
    cbv zeta in H. destruct (second_reply env s); rewrite H in Hrun;
      [|discriminate].
    injection Hrun as _ <-.
    cbn [conversationHistory]. rewrite !length_app. simpl. lia.
Qed.

Lemma chat_history_growth_witness :
  exists response,
    next_reply (demo_env [screenshot_request] [BText "done"]) ready = Ok response /\
    List.length
      [user_turn "take a screenshot";
       assistant_turn (mkResponse [screenshot_request]);
       final_turn (newline ++ "done")] =
    (List.length (conversationHistory ready) +
     match action_requests (response_content response) with
     | [] => 2
     | _ :: _ => 3
     end)%nat.
Proof.
  apply (chat_history_growth (demo_env [screenshot_request] [BText "done"])
           "take a screenshot" (newline ++ "done") ready
           (mkState (Some "sbx")
              [user_turn "take a screenshot";
               assistant_turn (mkResponse [screenshot_request]);
               final_turn (newline ++ "done")]
              (trace (snd (ComputerUseAgent.chat
                             (demo_env [screenshot_request] [BText "done"])
                             "take a screenshot" ready))))).
  vm_compute. reflexivity.
Defined.

(** ** C4 *)

(** Before [initialize] the three session operations fail with the
    not-initialized error and make no call on the sandbox. *)
Lemma before_initialize_fails (env : Env) (s : State) (name : string)
    (input : ToolInput) (userMessage : string) :
  desktop s = None ->
  let shot := ComputerUseAgent.takeScreenshot env s in
  let exec := ComputerUseAgent.executeToolCall env name input s in
  let turn := ComputerUseAgent.chat env userMessage s in
  fst shot = Throw NOT_INITIALIZED /\
  fst exec = Throw NOT_INITIALIZED /\
  fst turn = Throw NOT_INITIALIZED /\
  sandbox_calls (trace (snd shot)) = sandbox_calls (trace s) /\
  sandbox_calls (trace (snd exec)) = sandbox_calls (trace s) /\
  sandbox_calls (trace (snd turn)) = sandbox_calls (trace s).
Proof.
  intros Hd shot exec turn.
  assert (Hshot : forall s0, desktop s0 = None ->
            ComputerUseAgent.takeScreenshot env s0 = (Throw NOT_INITIALIZED, s0)).
  { intros s0 H0. unfold ComputerUseAgent.takeScreenshot.
    rewrite bind_get_desktop, H0. reflexivity. }
  assert (Hexec : exec = (Throw NOT_INITIALIZED,
            mkState (desktop s) (conversationHistory s) (trace s ++ [EExec name input]))).
  { subst exec. unfold ComputerUseAgent.executeToolCall.
    rewrite bind_record, bind_get_desktop. cbn [desktop]. rewrite Hd. reflexivity. }
  assert (Hturn : turn = (Throw NOT_INITIALIZED,
            mkState (desktop s) (conversationHistory s ++ [user_turn userMessage]) (trace s))).
  { subst turn. unfold ComputerUseAgent.chat.
    rewrite bind_push_history, try_catch_rethrow.
    erewrite bind_run_throw; [reflexivity|]. apply Hshot. exact Hd. }
  subst shot. rewrite (Hshot s Hd), Hexec, Hturn. cbn [fst snd trace].
  rewrite sandbox_calls_app. simpl. rewrite app_nil_r. repeat split; reflexivity.
Qed.

(** [cleanup] terminates the sandbox but keeps the handle. *)
Lemma cleanup_keeps_handle (env : Env) (s : State) :
  desktop (snd (ComputerUseAgent.cleanup env s)) = desktop s.
Proof.
  unfold ComputerUseAgent.cleanup. rewrite bind_get_desktop.
  destruct (desktop s) as [d|] eqn:Hd; [|simpl; auto].
  unfold try_catch, bind. rewrite sandbox_run.
  destruct (sandbox_reply env _); simpl; auto.
Qed.

(** C4, at its failing input: after [initialize] and [cleanup] the three
    session operations do not fail with the not-initialized error; each of
    them calls the terminated sandbox. *)
Theorem session_operations_after_cleanup :
  let shot := ComputerUseAgent.takeScreenshot lifecycle_env after_cleanup in
  let exec := ComputerUseAgent.executeToolCall lifecycle_env "key"
                (mkInput None None None (Some "Return") None None None None)
                after_cleanup in
  let turn := ComputerUseAgent.chat lifecycle_env "say hello" after_cleanup in
  desktop after_cleanup = Some "sbx" /\
  fst shot = Throw "Sandbox not found" /\
  sandbox_calls (trace (snd shot)) = [Create; Kill; Screenshot] /\
  fst exec = Ret (JSON_stringify [("error", JString "Sandbox not found")]) /\
  sandbox_calls (trace (snd exec)) = [Create; Kill; Press (Some "Return")] /\
  fst turn = Throw "Sandbox not found" /\
  sandbox_calls (trace (snd turn)) = [Create; Kill; Screenshot].
Proof. vm_compute. repeat split. Qed.

(** ** C5 *)

Lemma unknown_name_eqb (name : string) :
  ~ In name COMPUTER_TOOLS ->
  (name =? "screenshot") = false /\ (name =? "click") = false /\
  (name =? "type") = false /\ (name =? "key") = false /\
  (name =? "scroll") = false /\ (name =? "launch_app") = false /\
  (name =? "wait") = false.
Proof.
  intro H. repeat split; apply String.eqb_neq; intro E; apply H; subst name;
    simpl; tauto.
Qed.

(** C5: on an initialized agent, executing a tool call whose name is not a
    recognized one returns (it does not throw) the serialization of
    [{error: "Unknown tool: <name>"}], whose payload ends with the name as
    given; no call is made on the sandbox.  This holds for the executor of
    [ComputerUseAgent] and for the one of [InteractiveComputerAgent]. *)
Theorem unknown_tool_structured_error (env : Env) (name : string)
    (input : ToolInput) (s : State) (d : string) :
  desktop s = Some d ->
  ~ In name COMPUTER_TOOLS ->
  let payload := ("Unknown tool: " ++ name)%string in
  let result := JSON_stringify [("error", JString payload)] in
  let s' := mkState (desktop s) (conversationHistory s) (trace s ++ [EExec name input]) in
  ComputerUseAgent.executeToolCall env name input s = (Ret result, s') /\
  InteractiveComputerAgent.executeToolCall env name input s = (Ret result, s') /\
  result = ("{" ++ quote "error" ++ ":" ++ quote payload ++ "}")%string /\
  sandbox_calls (trace s') = sandbox_calls (trace s) /\
  exists before, payload = (before ++ name)%string.
Proof.
  intros Hd Hunknown payload result s'.
  destruct (unknown_name_eqb name Hunknown) as (H1 & H2 & H3 & H4 & H5 & H6 & H7).
  repeat split.
  - unfold ComputerUseAgent.executeToolCall.
    rewrite bind_record, bind_get_desktop. cbn [desktop]. rewrite Hd.
    rewrite H1, H2, H3, H4, H5, H6, H7. subst s'. rewrite Hd. reflexivity.
  - unfold InteractiveComputerAgent.executeToolCall.
    rewrite bind_record, bind_get_desktop. cbn [desktop]. rewrite Hd.
    rewrite H1, H2, H3, H4, H5, H6, H7. subst s'. rewrite Hd. reflexivity.
  - subst s'. cbn [trace]. rewrite sandbox_calls_app. simpl. apply app_nil_r.
  - exists "Unknown tool: ". reflexivity.
Qed.

Lemma unknown_tool_structured_error_witness :
  ComputerUseAgent.executeToolCall (demo_env [] []) "drag" empty_input ready =
    (Ret (JSON_stringify [("error", JString "Unknown tool: drag")]),
     mkState (Some "sbx") [] [EExec "drag" empty_input]).
Proof.
  apply (unknown_tool_structured_error (demo_env [] []) "drag" empty_input ready "sbx").
  - reflexivity.
  - simpl. intros [H|[H|[H|[H|[H|[H|[H|[]]]]]]]]; discriminate H.
Defined.

(** ** C6 *)

(** C6 (as the code has it): the first request of a turn carries the history,
    whose last entry is now the instruction as a user-role text entry, and
    ends with one more user-role entry made of the just-captured screenshot
    and an empty text part: the instruction text is in the entry before the
    final one, not in the final one. *)
Theorem first_request_ends_with_screenshot (env : Env) (userMessage : string)
    (s : State) (path img : string) :
  screenshot_ok env s path img ->
  exists later,
    provider_requests (trace (snd (ComputerUseAgent.chat env userMessage s))) =
    provider_requests (trace s) ++
    mkRequest 4096 ComputerUseAgent.SYSTEM_PROMPT
      (map to_entry (conversationHistory s) ++
       [mkEntry user [BText userMessage];
        mkEntry user [BImage img; BText ""]]) :: later.
Proof.
  intro Hok.
  assert (Hreq : first_request_of s userMessage img =
    mkRequest 4096 ComputerUseAgent.SYSTEM_PROMPT
      (map to_entry (conversationHistory s) ++
       [mkEntry user [BText userMessage]; mkEntry user [BImage img; BText ""]])).
  { unfold first_request_of, ComputerUseAgent.first_request.
    rewrite map_app, <- app_assoc. reflexivity. }
  rewrite <- Hreq.
  destruct (next_reply env s) as [response|e] eqn:Hreply.
  - destruct (chat_calls env userMessage s path img response Hok Hreply)
      as (_ & Hnone & Hsome).
    destruct (action_requests (response_content response)) as [|r rs] eqn:Hk.
    + rewrite Hnone by reflexivity. eauto.
    + destruct Hsome as (t & followUp & _ & _ & _ & Hp); [discriminate|].
      rewrite Hp. eauto.
  - rewrite (chat_provider_failed env userMessage s path img e Hok Hreply).
    cbn [snd trace]. rewrite provider_requests_app. simpl. eauto.
Qed.

Lemma first_request_ends_with_screenshot_witness :
  exists later,
    provider_requests
      (trace (snd (ComputerUseAgent.chat (demo_env [BText "hello"] []) "say hello" ready))) =
    provider_requests (trace ready) ++
    mkRequest 4096 ComputerUseAgent.SYSTEM_PROMPT
      (map to_entry (conversationHistory ready) ++
       [mkEntry user [BText "say hello"];
        mkEntry user [BImage "aW1n"; BText ""]]) :: later.
Proof.
  apply (first_request_ends_with_screenshot (demo_env [BText "hello"] []) "say hello"
           ready "/tmp/screenshot.png" "aW1n").
  apply demo_screenshot_ok.
Defined.

(** C6 fails as stated: for the instruction "say hello" the final entry of
    the first request is the screenshot with an empty text part; it does not
    contain the instruction text. *)
Lemma first_request_final_text_is_empty :
  exists req,
    hd_error (provider_requests
      (trace (snd (ComputerUseAgent.chat (demo_env [BText "hello"] []) "say hello" ready))))
      = Some req /\
    last (messages req) (mkEntry user []) = mkEntry user [BImage "aW1n"; BText ""] /\
    ~ In (BText "say hello") (entry_content (last (messages req) (mkEntry user []))).
Proof.
  eexists. split; [reflexivity|].
  split; [reflexivity|].
  simpl. intros [H|[H|[]]]; discriminate H.
Qed.

(** ** C7 *)

(** C7, at its failing input: on an initialized [ComputerUseAgent] a scroll
    request that omits [amount] presses no key at all: the executor returns
    success and the trace gains the invocation only. *)
Theorem scroll_without_amount_presses_nothing (env : Env) (input : ToolInput)
    (s : State) (d : string) :
  desktop s = Some d ->
  amount input = None ->
  ComputerUseAgent.executeToolCall env "scroll" input s =
  (Ret success,
   mkState (desktop s) (conversationHistory s) (trace s ++ [EExec "scroll" input])).
Proof.
  intros Hd Hamount. unfold ComputerUseAgent.executeToolCall.
  rewrite bind_record, bind_get_desktop. cbn [desktop]. rewrite Hd.
  simpl String.eqb. rewrite Hamount. reflexivity.
Qed.

Lemma scroll_without_amount_presses_nothing_witness :
  ComputerUseAgent.executeToolCall (demo_env [] []) "scroll" scroll_down ready =
  (Ret success, mkState (Some "sbx") [] [EExec "scroll" scroll_down]).
Proof.
  apply (scroll_without_amount_presses_nothing (demo_env [] []) scroll_down ready "sbx");
    reflexivity.
Defined.

(** The sibling executor presses the key 3 times on the same request. *)
Example interactive_scroll_without_amount :
  sandbox_calls (trace (snd
    (InteractiveComputerAgent.executeToolCall (demo_env [] []) "scroll" scroll_down ready)))
  = [Press (Some "Page_Down"); Press (Some "Page_Down"); Press (Some "Page_Down")].
Proof. reflexivity. Qed.

(** So does [DesktopController.scroll], whose [amount] defaults to 3. *)
Example controller_scroll_default :
  sandbox_calls (trace (snd (DesktopController.scroll (demo_env [] []) "down" None ready)))
  = [Press (Some "Page_Down"); Press (Some "Page_Down"); Press (Some "Page_Down")].
Proof. reflexivity. Qed.

(** ** C8 *)

Lemma or_fallback_newlines (fragments : list string) :
  or_fallback (join (map (append newline) fragments)) =
  match fragments with
  | [] => FALLBACK
  | _ :: _ => join (map (append newline) fragments)
  end.
Proof. destruct fragments; reflexivity. Qed.

(** C8 (as the code has it): in a turn whose first response contains exactly
    one screenshot action request and no text fragment, and whose follow-up
    is answered, [chat] returns the text fragments of the follow-up response,
    each preceded by a newline character, or the fallback string when that
    response has no text fragment; the history gains exactly 3 entries. *)
Theorem screenshot_only_turn (env : Env) (userMessage : string) (s : State)
    (path img id : string) (input : ToolInput) (response followUp : Response) :
  screenshot_ok env s path img ->
  next_reply env s = Ok response ->
  action_requests (response_content response) = [mkToolCall id "screenshot" input] ->
  text_fragments (response_content response) = [] ->
  second_reply env s = Ok followUp ->
  let run := ComputerUseAgent.chat env userMessage s in
  fst run =
    Ret match text_fragments (response_content followUp) with
        | [] => FALLBACK
        | _ :: _ => join (map (append newline) (text_fragments (response_content followUp)))
        end /\
  List.length (conversationHistory (snd run)) =
    (List.length (conversationHistory s) + 3)%nat.
Proof.
  intros Hok Hreply Hone Hnotext Hsecond run.
  assert (Hsome : action_requests (response_content response) <> [])
    by (rewrite Hone; discriminate).
  destruct (chat_with_actions env userMessage s path img response Hok Hreply Hsome)
    as (results & t & _ & _ & _ & Hrun).
  cbv zeta in Hrun. rewrite Hsecond, Hnotext, append_texts_spec in Hrun.
  cbn [join fold_right append] in Hrun. rewrite or_fallback_newlines in Hrun.
  subst run. rewrite Hrun. cbn [fst snd conversationHistory].
  split; [reflexivity|].
  rewrite !length_app. simpl. lia.
Qed.

Lemma screenshot_only_turn_witness :
  let run := ComputerUseAgent.chat (demo_env [screenshot_request] [BText "done"])
               "take a screenshot" ready in
  fst run = Ret (join (map (append newline) ["done"])) /\
  List.length (conversationHistory (snd run)) = (0 + 3)%nat.
Proof.
  apply (screenshot_only_turn (demo_env [screenshot_request] [BText "done"])
           "take a screenshot" ready "/tmp/screenshot.png" "aW1n" "toolu_1" empty_input
           (mkResponse [screenshot_request]) (mkResponse [BText "done"])).
  - apply demo_screenshot_ok.
  - reflexivity.
  - reflexivity.
  - reflexivity.
  - reflexivity.
Defined.

(** C8 fails as stated: when the follow-up response is the single text
    "done", [chat] returns a newline followed by "done", not "done". *)
Lemma screenshot_only_turn_returns_leading_newline :
  let run := ComputerUseAgent.chat (demo_env [screenshot_request] [BText "done"])
               "take a screenshot" ready in
  fst run = Ret (newline ++ "done")%string /\
  fst run <> Ret (join (text_fragments [BText "done"])).
Proof.
  split; [reflexivity|].
  vm_compute. discriminate.
Qed.

(** ** C9 *)



(** ** C10 *)




(* ------------------------------------------------------------------ *)
(** * Further properties of the code *)

(** ** What a run may change *)

Lemma grows_refl (P : event -> Prop) (s : State) : grows P s s.
Proof.
  split; [reflexivity|]. split.
  - exists []. rewrite app_nil_r. reflexivity.
  - exists []. rewrite app_nil_r. auto.
Qed.

Lemma grows_trans (P : event -> Prop) (s1 s2 s3 : State) :
  grows P s1 s2 -> grows P s2 s3 -> grows P s1 s3.
Proof.
  intros (Hd1 & [l1 Hh1] & t1 & Ht1 & Hp1) (Hd2 & [l2 Hh2] & t2 & Ht2 & Hp2).
  split; [congruence|]. split.
  - exists (l1 ++ l2). rewrite Hh2, Hh1, app_assoc. reflexivity.
  - exists (t1 ++ t2). rewrite Ht2, Ht1, app_assoc. split; [reflexivity|].
    apply Forall_app. auto.
Qed.

Lemma always_ret (P : event -> Prop) {A} (a : A) : always P (ret a).
Proof. intro s. apply grows_refl. Qed.

Lemma always_throw (P : event -> Prop) {A} (msg : string) : always P (@throw A msg).
Proof. intro s. apply grows_refl. Qed.

Lemma always_of_reply (P : event -> Prop) {A} (r : reply A) : always P (of_reply r).
Proof. destruct r; [apply always_ret | apply always_throw]. Qed.

Lemma always_get_desktop (P : event -> Prop) : always P get_desktop.
Proof. intro s. apply grows_refl. Qed.

Lemma always_get_history (P : event -> Prop) : always P get_history.
Proof. intro s. apply grows_refl. Qed.

Lemma always_push_history (P : event -> Prop) (m : Message) :
  always P (push_history m).
Proof.
  intro s. split; [reflexivity|]. split.
  - exists [m]. reflexivity.
  - exists []. simpl. rewrite app_nil_r. auto.
Qed.

Lemma always_record (P : event -> Prop) (e : event) : P e -> always P (record e).
Proof.
  intros He s. split; [reflexivity|]. split.
  - exists []. simpl. rewrite app_nil_r. reflexivity.
  - exists [e]. auto.
Qed.

Lemma always_bind (P : event -> Prop) {A B} (m : M A) (k : A -> M B) :
  always P m -> (forall a, always P (k a)) -> always P (bind m k).
Proof.
  intros Hm Hk s. unfold bind.
  specialize (Hm s). destruct (m s) as [[a|msg] s']; simpl in *.
  - eapply grows_trans; [exact Hm | apply Hk].
  - exact Hm.
Qed.

Lemma always_try_catch (P : event -> Prop) {A} (m : M A) (h : string -> M A) :
  always P m -> (forall e, always P (h e)) -> always P (try_catch m h).
Proof.
  intros Hm Hh s. unfold try_catch.
  specialize (Hm s). destruct (m s) as [[a|msg] s']; simpl in *.
  - exact Hm.
  - eapply grows_trans; [exact Hm | apply Hh].
Qed.

Lemma always_sandbox (P : event -> Prop) (env : Env) (c : SandboxCall) :
  P (ESandbox c) -> always P (sandbox env c).
Proof.
  intros Hc s. unfold sandbox.
  apply (always_bind P (record (ESandbox c))); [apply always_record; exact Hc|].
  intros _. apply always_of_reply.
Qed.

Lemma always_readFileSync (P : event -> Prop) (env : Env) (path : string) :
  P (EReadFile path) -> always P (readFileSync env path).
Proof.
  intros Hc s. unfold readFileSync.
  apply (always_bind P (record (EReadFile path))); [apply always_record; exact Hc|].
  intros _. apply always_of_reply.
Qed.

Lemma always_messages_create (P : event -> Prop) (env : Env) (req : Request) :
  P (EProvider req) -> always P (messages_create env req).
Proof.
  intros Hc s. unfold messages_create.
  apply (always_bind P (record (EProvider req))); [apply always_record; exact Hc|].
  intros _. apply always_of_reply.
Qed.

Lemma always_sleep (P : event -> Prop) (ms : option number) :
  P (ESleep ms) -> always P (sleep ms).
Proof. apply always_record. Qed.

Lemma always_repeat_times (P : event -> Prop) (n : nat) (body : M unit) :
  always P body -> always P (repeat_times n body).
Proof.
  intro Hb. induction n as [|n IH]; simpl.
  - apply always_ret.
  - apply always_bind; auto.
Qed.

Create HintDb session.

#[local] Hint Resolve always_ret always_throw always_get_desktop always_get_history
  always_push_history always_repeat_times : session.
#[local] Hint Extern 1 (session_event _) => exact I : session.
#[local] Hint Extern 2 (always _ (sandbox _ _)) => apply always_sandbox : session.
#[local] Hint Extern 2 (always _ (readFileSync _ _)) => apply always_readFileSync : session.
#[local] Hint Extern 2 (always _ (messages_create _ _)) =>
  apply always_messages_create : session.
#[local] Hint Extern 2 (always _ (sleep _)) => apply always_sleep : session.
#[local] Hint Extern 2 (always _ (record _)) => apply always_record : session.
#[local] Hint Extern 2 (always _ (bind _ _)) => apply always_bind; [|intro] : session.
#[local] Hint Extern 2 (always _ (try_catch _ _)) =>
  apply always_try_catch; [|intro] : session.
#[local] Hint Extern 3 (always _ (if ?b then _ else _)) => destruct b : session.
#[local] Hint Extern 3 (always _ (match ?d with Some _ => _ | None => _ end)) =>
  destruct d : session.
#[local] Hint Extern 3 (always _ (let (_, _) := ?p in _)) => destruct p : session.

Lemma always_takeScreenshot (env : Env) :
  always session_event (ComputerUseAgent.takeScreenshot env).
Proof. unfold ComputerUseAgent.takeScreenshot. auto 12 with session. Qed.

#[local] Hint Resolve always_takeScreenshot : session.

Lemma always_executeToolCall (env : Env) (name : string) (input : ToolInput) :
  always session_event (ComputerUseAgent.executeToolCall env name input).
Proof. unfold ComputerUseAgent.executeToolCall. auto 20 with session. Qed.

#[local] Hint Resolve always_executeToolCall : session.

Lemma always_run_tool_calls (env : Env) (toolCalls : list ToolCall) :
  forall toolResults,
    always session_event (ComputerUseAgent.run_tool_calls env toolCalls toolResults).
Proof.
  induction toolCalls as [|tc rest IH]; intro acc; simpl; auto 6 with session.
Qed.

#[local] Hint Resolve always_run_tool_calls : session.

Lemma always_final_text (userMessage : string) (history : list Message) :
  always session_event (ComputerUseAgent.final_text userMessage history).
Proof.
  unfold ComputerUseAgent.final_text.
  destruct (nth_error history (List.length history - 1)); auto with session.
Qed.

#[local] Hint Resolve always_final_text : session.

Lemma always_chat (env : Env) (userMessage : string) :
  always session_event (ComputerUseAgent.chat env userMessage).
Proof.
  unfold ComputerUseAgent.chat, ComputerUseAgent.follow_up.
  auto 30 with session.
Qed.

(** ** The session: [initialize] and [cleanup] *)

(** X1: [initialize] makes one creation call.  When it is answered the
    handle becomes the new sandbox, whatever the handle was before; when it
    fails the error is thrown again and the handle is left as it was.  The
    history is untouched either way. *)
Theorem initialize_outcomes (env : Env) (s : State) :
  ComputerUseAgent.initialize env s =
  match sandbox_reply env (List.length (sandbox_calls (trace s))) with
  | Ok sandboxId =>
      (Ret tt, mkState (Some sandboxId) (conversationHistory s)
                       (trace s ++ [ESandbox Create]))
  | Failed e => (Throw e, add_events s [ESandbox Create])
  end.
Proof.
  unfold ComputerUseAgent.initialize. rewrite try_catch_rethrow.
  unfold bind. rewrite sandbox_run.
  destruct (sandbox_reply env _); reflexivity.
Qed.

(** X2: [cleanup] never throws, also when the termination call fails.  It
    makes exactly one termination call when the agent holds a handle and no
    call at all otherwise; the handle and the history stay as they were. *)
Theorem cleanup_never_throws (env : Env) (s : State) :
  ComputerUseAgent.cleanup env s =
  (Ret tt,
   add_events s match desktop s with
                | Some _ => [ESandbox Kill]
                | None => []
                end).
Proof.
  unfold ComputerUseAgent.cleanup. rewrite bind_get_desktop.
  destruct s as [[d|] history events]; cbn [desktop].
  - unfold try_catch, bind. rewrite sandbox_run.
    destruct (sandbox_reply env _); reflexivity.
  - unfold ret, add_events. cbn [desktop conversationHistory trace].
    rewrite app_nil_r. reflexivity.
Qed.

(** ** The executor *)

(** X3: on an initialized agent neither executor ever throws, whatever the
    sandbox and the file system answer: it returns a result, counts as one
    invocation, makes no completion request and leaves the handle and the
    history unchanged. *)
Theorem executor_absorbs_failures (env : Env) (name : string) (input : ToolInput)
    (s : State) (d : string) :
  desktop s = Some d ->
  forall run,
    run = ComputerUseAgent.executeToolCall env name input s \/
    run = InteractiveComputerAgent.executeToolCall env name input s ->
    exists result,
      fst run = Ret result /\
      desktop (snd run) = Some d /\
      conversationHistory (snd run) = conversationHistory s /\
      executor_calls (trace (snd run)) = executor_calls (trace s) ++ [(name, input)] /\
      provider_requests (trace (snd run)) = provider_requests (trace s).
Proof.
  intros Hd run Hrun.
  assert (H : exists r s', run = (Ret r, s') /\ executor_step name input s s').
  { destruct Hrun as [-> | ->].
    - apply (executeToolCall_initialized env name input s d Hd).
    - apply (executeToolCall_interactive_initialized env name input s d Hd). }
  destruct H as (r & s' & -> & Hd' & Hh & t & Ht & He & Hp).
  exists r. cbn [fst snd].
  rewrite Ht, executor_calls_app, provider_requests_app. simpl.
  rewrite He, Hp, app_nil_r. repeat split; congruence.
Qed.

Lemma executor_absorbs_failures_witness :
  exists result,
    fst (ComputerUseAgent.executeToolCall (env_with down up [] []) "click"
           empty_input ready) = Ret result /\
    desktop (snd (ComputerUseAgent.executeToolCall (env_with down up [] []) "click"
                    empty_input ready)) = Some "sbx" /\
    conversationHistory
      (snd (ComputerUseAgent.executeToolCall (env_with down up [] []) "click"
              empty_input ready)) = conversationHistory ready /\
    executor_calls
      (trace (snd (ComputerUseAgent.executeToolCall (env_with down up [] []) "click"
                     empty_input ready))) =
      executor_calls (trace ready) ++ [("click", empty_input)] /\
    provider_requests
      (trace (snd (ComputerUseAgent.executeToolCall (env_with down up [] []) "click"
                     empty_input ready))) = provider_requests (trace ready).
Proof.
  apply (executor_absorbs_failures (env_with down up [] []) "click" empty_input
           ready "sbx").
  - reflexivity.
  - left. reflexivity.
Defined.

(** X4: the [type] and [key] tools make exactly one sandbox call, [write]
    with the given text and [press] with the given key.  The result is the
    success object when the call is answered and [{error: <message>}] with
    the sandbox's message when it fails. *)
Theorem keyboard_tools (env : Env) (input : ToolInput) (s : State) (d : string) :
  desktop s = Some d ->
  let result :=
    match sandbox_reply env (List.length (sandbox_calls (trace s))) with
    | Ok _ => success
    | Failed e => JSON_stringify [("error", JString e)]
    end in
  ComputerUseAgent.executeToolCall env "type" input s =
    (Ret result, add_events s [EExec "type" input; ESandbox (Write (text input))]) /\
  ComputerUseAgent.executeToolCall env "key" input s =
    (Ret result, add_events s [EExec "key" input; ESandbox (Press (key input))]).
Proof.
  intros Hd result. subst result.
  split; unfold ComputerUseAgent.executeToolCall;
    rewrite bind_record, bind_get_desktop; cbn [desktop]; rewrite Hd;
    simpl String.eqb; unfold try_catch, bind; rewrite sandbox_run;
    cbn [trace desktop conversationHistory];
    rewrite sandbox_calls_app; simpl sandbox_calls; rewrite app_nil_r;
    unfold add_events; rewrite <- app_assoc, Hd;
    destruct (sandbox_reply env _); reflexivity.
Qed.

Lemma keyboard_tools_witness :
  ComputerUseAgent.executeToolCall (env_with down up [] []) "type"
    (mkInput None None (Some "hello") None None None None None) ready =
  (Ret (JSON_stringify [("error", JString "sandbox unreachable")]),
   add_events ready
     [EExec "type" (mkInput None None (Some "hello") None None None None None);
      ESandbox (Write (Some "hello"))]).
Proof.
  apply (keyboard_tools (env_with down up [] [])
           (mkInput None None (Some "hello") None None None None None) ready "sbx").
  reflexivity.
Defined.

(** ** Loops of sandbox calls *)

Lemma add_events_add_events (s : State) (t u : list event) :
  add_events (add_events s t) u = add_events s (t ++ u).
Proof. unfold add_events. simpl. rewrite app_assoc. reflexivity. Qed.

Lemma add_events_nil (s : State) : add_events s [] = s.
Proof. destruct s. unfold add_events. simpl. rewrite app_nil_r. reflexivity. Qed.

Lemma sandbox_answers_shift (env : Env) (s : State) (t : list event) (n : nat) :
  sandbox_answers env s (S n) ->
  List.length (sandbox_calls t) = 1%nat ->
  sandbox_answers env (add_events s t) n.
Proof.
  intros H Ht i Hi. cbn [add_events trace].
  rewrite sandbox_calls_app, length_app, Ht.
  destruct (H (S i)) as [v Hv]; [lia|].
  exists v. rewrite <- Hv. f_equal. lia.
Qed.

Lemma sandbox_answered (env : Env) (c : SandboxCall) (s : State) (n : nat) :
  sandbox_answers env s (S n) ->
  exists v, sandbox env c s = (Ret v, add_events s [ESandbox c]).
Proof.
  intro H. destruct (H 0%nat) as [v Hv]; [lia|].
  exists v. rewrite sandbox_run. rewrite Nat.add_0_r in Hv. rewrite Hv. reflexivity.
Qed.

Lemma sandbox_refused (env : Env) (c : SandboxCall) (s : State) (e : string) :
  sandbox_reply env (List.length (sandbox_calls (trace s))) = Failed e ->
  sandbox env c s = (Throw e, add_events s [ESandbox c]).
Proof. intro H. rewrite sandbox_run, H. reflexivity. Qed.

Lemma repeat_sandbox_answered (env : Env) (c : SandboxCall) (after : M unit)
    (evs : list event) :
  (forall s, after s = (Ret tt, add_events s evs)) ->
  sandbox_calls evs = [] ->
  forall (n : nat) (s : State),
    sandbox_answers env s n ->
    repeat_times n (sandbox env c ;;; after) s = (Ret tt, add_events s (rounds n c evs)).
Proof.
  intros Hafter Hevs. induction n as [|n IH]; intros s Hans; simpl.
  - rewrite add_events_nil. reflexivity.
  - destruct (sandbox_answered env c s n Hans) as [v Hv].
    erewrite bind_run.
    2:{ erewrite bind_run; [|exact Hv]. apply Hafter. }
    rewrite add_events_add_events. rewrite IH.
    + rewrite add_events_add_events. reflexivity.
    + apply sandbox_answers_shift; [exact Hans|].
      rewrite sandbox_calls_app, Hevs. reflexivity.
Qed.

Lemma repeat_sandbox_refused (env : Env) (c : SandboxCall) (after : M unit)
    (evs : list event) (e : string) :
  (forall s, after s = (Ret tt, add_events s evs)) ->
  sandbox_calls evs = [] ->
  forall (j n : nat) (s : State),
    (j < n)%nat ->
    sandbox_answers env s j ->
    sandbox_reply env (List.length (sandbox_calls (trace s)) + j) = Failed e ->
    repeat_times n (sandbox env c ;;; after) s =
    (Throw e, add_events s (rounds j c evs ++ [ESandbox c])).
Proof.
  intros Hafter Hevs. induction j as [|j IH]; intros n s Hlt Hans Hfail.
  - destruct n as [|n]; [lia|]. simpl.
    rewrite Nat.add_0_r in Hfail.
    erewrite bind_run_throw; [reflexivity|].
    erewrite bind_run_throw; [reflexivity|].
    apply sandbox_refused. exact Hfail.
  - destruct n as [|n]; [lia|]. simpl.
    destruct (sandbox_answered env c s j Hans) as [v Hv].
    erewrite bind_run.
    2:{ erewrite bind_run; [|exact Hv]. apply Hafter. }
    rewrite add_events_add_events. rewrite (IH n).
    + rewrite add_events_add_events. simpl. rewrite <- !app_assoc. reflexivity.
    + lia.
    + apply sandbox_answers_shift; [exact Hans|].
      rewrite sandbox_calls_app, Hevs. reflexivity.
    + cbn [add_events trace]. rewrite sandbox_calls_app, length_app.
      rewrite sandbox_calls_app, Hevs. simpl. rewrite <- Hfail. f_equal. lia.
Qed.

Lemma rounds_nil (n : nat) (c : SandboxCall) :
  rounds n c [] = repeat (ESandbox c) n.
Proof. induction n as [|n IH]; simpl; [reflexivity | rewrite IH; reflexivity]. Qed.

Lemma ret_tt_adds_nothing (s : State) : ret tt s = (Ret tt, add_events s []).
Proof. rewrite add_events_nil. reflexivity. Qed.

Lemma sandbox_answers_after_exec (env : Env) (s : State) (name : string)
    (input : ToolInput) (n : nat) :
  sandbox_answers env s n ->
  sandbox_answers env (add_events s [EExec name input]) n.
Proof.
  intros H i Hi. cbn [add_events trace]. rewrite sandbox_calls_app. simpl.
  rewrite app_nil_r. apply H. exact Hi.
Qed.

(** ** Scrolling *)

(** X5: a scroll request with a numeric amount presses the page key of its
    direction once per iteration of [for (i = 0; i < amount; i++)], that is
    the amount rounded up, and never for an amount that is zero or negative;
    when the sandbox answers all these calls the result is the success
    object. *)
Theorem scroll_presses (env : Env) (input : ToolInput) (s : State) (d : string)
    (q : Q) :
  desktop s = Some d ->
  amount input = Some (Num q) ->
  sandbox_answers env s (Z.to_nat (Qceiling q)) ->
  ComputerUseAgent.executeToolCall env "scroll" input s =
  (Ret success,
   add_events s
     (EExec "scroll" input ::
      repeat (ESandbox (Press (Some (page_key (direction input)))))
             (Z.to_nat (Qceiling q)))).
Proof.
  intros Hd Hamount Hans. unfold ComputerUseAgent.executeToolCall.
  rewrite bind_record, bind_get_desktop. cbn [desktop]. rewrite Hd.
  simpl String.eqb. rewrite Hamount. cbn [ToNumber loop_count].
  unfold try_catch.
  erewrite bind_run.
  2:{ apply (repeat_sandbox_answered env _ (ret tt) []);
        [apply ret_tt_adds_nothing | reflexivity |].
      apply (sandbox_answers_after_exec env s "scroll" input) in Hans.
      unfold add_events in Hans. rewrite Hd in Hans. exact Hans. }
  rewrite rounds_nil. unfold ret, add_events. cbn [trace desktop conversationHistory].
  rewrite <- app_assoc, Hd. reflexivity.
Qed.

Lemma scroll_presses_witness :
  ComputerUseAgent.executeToolCall (demo_env [] []) "scroll"
    (scroll_by "down" (5 # 2)) ready =
  (Ret success,
   add_events ready
     (EExec "scroll" (scroll_by "down" (5 # 2)) ::
      repeat (ESandbox (Press (Some (page_key (direction (scroll_by "down" (5 # 2)))))))
             (Z.to_nat (Qceiling (5 # 2))))).
Proof.
  apply (scroll_presses (demo_env [] []) (scroll_by "down" (5 # 2)) ready "sbx" (5 # 2)).
  - reflexivity.
  - reflexivity.
  - intros i _. exists "/tmp/screenshot.png". reflexivity.
Defined.

(** X6: scrolling stops at the first press the sandbox refuses: no further
    key is pressed and the result is [{error: <message>}] with the
    sandbox's message. *)
Theorem scroll_stops_at_first_failure (env : Env) (input : ToolInput) (s : State)
    (d e : string) (q : Q) (j : nat) :
  desktop s = Some d ->
  amount input = Some (Num q) ->
  (j < Z.to_nat (Qceiling q))%nat ->
  sandbox_answers env s j ->
  sandbox_reply env (List.length (sandbox_calls (trace s)) + j) = Failed e ->
  ComputerUseAgent.executeToolCall env "scroll" input s =
  (Ret (JSON_stringify [("error", JString e)]),
   add_events s
     (EExec "scroll" input ::
      repeat (ESandbox (Press (Some (page_key (direction input))))) (S j))).
Proof.
  intros Hd Hamount Hlt Hans Hfail. unfold ComputerUseAgent.executeToolCall.
  rewrite bind_record, bind_get_desktop. cbn [desktop]. rewrite Hd.
  simpl String.eqb. rewrite Hamount. cbn [ToNumber loop_count].
  unfold try_catch.
  erewrite bind_run_throw.
  2:{ apply (repeat_sandbox_refused env _ (ret tt) [] e) with (j := j);
        [apply ret_tt_adds_nothing | reflexivity | exact Hlt | |].
      - apply (sandbox_answers_after_exec env s "scroll" input) in Hans.
        unfold add_events in Hans. rewrite Hd in Hans. exact Hans.
      - cbn [trace]. rewrite sandbox_calls_app. simpl. rewrite app_nil_r. exact Hfail. }
  rewrite rounds_nil. unfold ret, add_events. cbn [trace desktop conversationHistory].
  rewrite <- app_assoc, Hd.
  replace (repeat (ESandbox (Press (Some (page_key (direction input))))) j ++
           [ESandbox (Press (Some (page_key (direction input))))])
    with (repeat (ESandbox (Press (Some (page_key (direction input))))) (S j)).
  - reflexivity.
  - rewrite <- repeat_cons. reflexivity.
Qed.

Lemma scroll_stops_at_first_failure_witness :
  ComputerUseAgent.executeToolCall
    (env_with (fun n => (n <? 2)%nat) up [] []) "scroll" (scroll_by "up" 5) ready =
  (Ret (JSON_stringify [("error", JString "sandbox unreachable")]),
   add_events ready
     (EExec "scroll" (scroll_by "up" 5) ::
      repeat (ESandbox (Press (Some (page_key (direction (scroll_by "up" 5)))))) 3)).
Proof.
  apply (scroll_stops_at_first_failure (env_with (fun n => (n <? 2)%nat) up [] [])
           (scroll_by "up" 5) ready "sbx" "sandbox unreachable" 5 2).
  - reflexivity.
  - reflexivity.
  - vm_compute. lia.
  - intros i Hi. exists "/tmp/screenshot.png".
    destruct i as [|[|i]]; [reflexivity | reflexivity | lia].
  - reflexivity.
Defined.

(** ** Launching and capturing *)

(** X7: [launch_app] waits its 3000 ms settle delay only after a launch the
    sandbox accepted; a refused launch is reported as [{error: <message>}]
    at once, without the delay. *)
Theorem launch_app_settles_after_success (env : Env) (input : ToolInput)
    (s : State) (d : string) :
  desktop s = Some d ->
  ComputerUseAgent.executeToolCall env "launch_app" input s =
  match sandbox_reply env (List.length (sandbox_calls (trace s))) with
  | Ok _ =>
      (Ret success,
       add_events s [EExec "launch_app" input; ESandbox (Launch (app input));
                     ESleep (Some (Num 3000))])
  | Failed e =>
      (Ret (JSON_stringify [("error", JString e)]),
       add_events s [EExec "launch_app" input; ESandbox (Launch (app input))])
  end.
Proof.
  intros Hd. unfold ComputerUseAgent.executeToolCall.
  rewrite bind_record, bind_get_desktop. cbn [desktop]. rewrite Hd.
  simpl String.eqb. unfold try_catch, bind. rewrite sandbox_run.
  cbn [trace desktop conversationHistory].
  rewrite sandbox_calls_app. simpl sandbox_calls. rewrite app_nil_r.
  unfold add_events. rewrite Hd.
  destruct (sandbox_reply env _); simpl; rewrite <- !app_assoc; reflexivity.
Qed.

Lemma launch_app_settles_after_success_witness :
  ComputerUseAgent.executeToolCall (demo_env [] []) "launch_app"
    (mkInput None None None None None None (Some "gedit") None) ready =
  (Ret success,
   add_events ready
     [EExec "launch_app" (mkInput None None None None None None (Some "gedit") None);
      ESandbox (Launch (Some "gedit")); ESleep (Some (Num 3000))]).
Proof.
  apply (launch_app_settles_after_success (demo_env [] [])
           (mkInput None None None None None None (Some "gedit") None) ready "sbx").
  reflexivity.
Defined.

Lemma takeScreenshot_fails (env : Env) (s : State) (e : string) :
  screenshot_fails env s e ->
  exists s', ComputerUseAgent.takeScreenshot env s = (Throw e, s').
Proof.
  unfold ComputerUseAgent.takeScreenshot. rewrite bind_get_desktop.
  intros [[Hd ->] | [[d Hd] [Hs | (path & Hs & Hf)]]]; rewrite Hd.
  - eexists. reflexivity.
  - rewrite try_catch_rethrow. eexists.
    erewrite bind_run_throw; [reflexivity|]. apply sandbox_refused. exact Hs.
  - rewrite try_catch_rethrow. eexists.
    erewrite bind_run; [|rewrite sandbox_run, Hs; reflexivity].
    rewrite readFileSync_run. cbn [trace]. rewrite file_reads_app. simpl file_reads.
    rewrite app_nil_r, Hf. reflexivity.
Qed.

Lemma takeScreenshot_run (env : Env) (s : State) (d : string) :
  desktop s = Some d ->
  ComputerUseAgent.takeScreenshot env s =
  match sandbox_reply env (List.length (sandbox_calls (trace s))) with
  | Ok path =>
      match fs_reply env (List.length (file_reads (trace s))) with
      | Ok img => (Ret img, add_events s [ESandbox Screenshot; EReadFile path])
      | Failed e => (Throw e, add_events s [ESandbox Screenshot; EReadFile path])
      end
  | Failed e => (Throw e, add_events s [ESandbox Screenshot])
  end.
Proof.
  intro Hd. unfold ComputerUseAgent.takeScreenshot.
  rewrite bind_get_desktop, Hd, try_catch_rethrow.
  unfold bind. rewrite sandbox_run.
  destruct (sandbox_reply env _) as [path|e]; simpl; [|reflexivity].
  rewrite readFileSync_run. cbn [trace desktop conversationHistory].
  rewrite file_reads_app. simpl file_reads. rewrite app_nil_r.
  unfold add_events.
  destruct (fs_reply env _); simpl; rewrite <- app_assoc; reflexivity.
Qed.

(** X8: the [screenshot] tool makes one capture call and, when it is
    answered, one file read.  It returns the image inside its success
    object, [{success: true, image_base64: <image>}]; a capture or a read
    that fails is reported as [{error: <message>}] and nothing is thrown. *)
Theorem screenshot_tool_result (env : Env) (input : ToolInput) (s : State)
    (d : string) :
  desktop s = Some d ->
  ComputerUseAgent.executeToolCall env "screenshot" input s =
  match sandbox_reply env (List.length (sandbox_calls (trace s))) with
  | Ok path =>
      match fs_reply env (List.length (file_reads (trace s))) with
      | Ok img =>
          (Ret (JSON_stringify [("success", JTrue); ("image_base64", JString img)]),
           add_events s [EExec "screenshot" input; ESandbox Screenshot; EReadFile path])
      | Failed e =>
          (Ret (JSON_stringify [("error", JString e)]),
           add_events s [EExec "screenshot" input; ESandbox Screenshot; EReadFile path])
      end
  | Failed e =>
      (Ret (JSON_stringify [("error", JString e)]),
       add_events s [EExec "screenshot" input; ESandbox Screenshot])
  end.
Proof.
  intros Hd. unfold ComputerUseAgent.executeToolCall.
  rewrite bind_record, bind_get_desktop. cbn [desktop]. rewrite Hd.
  simpl String.eqb. unfold try_catch, bind.
  rewrite (takeScreenshot_run env _ d) by reflexivity.
  cbn [trace desktop conversationHistory].
  rewrite sandbox_calls_app, file_reads_app. simpl. rewrite !app_nil_r.
  unfold add_events. cbn [trace desktop conversationHistory]. rewrite Hd.
  destruct (sandbox_reply env _) as [path|e]; [destruct (fs_reply env _)|];
    simpl; rewrite <- !app_assoc; reflexivity.
Qed.

Lemma screenshot_tool_result_witness :
  ComputerUseAgent.executeToolCall (demo_env [] []) "screenshot" empty_input ready =
  (Ret (JSON_stringify [("success", JTrue); ("image_base64", JString "aW1n")]),
   add_events ready
     [EExec "screenshot" empty_input; ESandbox Screenshot;
      EReadFile "/tmp/screenshot.png"]).
Proof.
  apply (screenshot_tool_result (demo_env [] []) empty_input ready "sbx").
  reflexivity.
Defined.

(** ** Turns that fail *)

(** X9: when the screenshot of a turn fails (no session, a refused capture or
    an unreadable file), [chat] throws that error before any completion
    request and any executor invocation; the instruction turn already
    appended stays in the history. *)
Theorem chat_aborts_when_screenshot_fails (env : Env) (userMessage : string)
    (s : State) (e : string) :
  screenshot_fails env s e ->
  let run := ComputerUseAgent.chat env userMessage s in
  fst run = Throw e /\
  desktop (snd run) = desktop s /\
  conversationHistory (snd run) = conversationHistory s ++ [user_turn userMessage] /\
  provider_requests (trace (snd run)) = provider_requests (trace s) /\
  executor_calls (trace (snd run)) = executor_calls (trace s).
Proof.
  intros Hfail run. subst run. unfold ComputerUseAgent.chat.
  rewrite bind_push_history, try_catch_rethrow.
  match goal with
  | |- context [bind (ComputerUseAgent.takeScreenshot env) ?k ?s1] =>
      destruct (takeScreenshot_fails env s1 e Hfail) as [s' Hs'];
      pose proof (quiet_takeScreenshot env s1) as Hq
  end.
  rewrite Hs' in Hq. destruct Hq as (Hd & Hh & t & Ht & He & Hp).
  erewrite bind_run_throw; [|exact Hs']. cbn [fst snd] in *.
  cbn [desktop conversationHistory trace] in *.
  rewrite Ht, provider_requests_app, executor_calls_app, He, Hp, !app_nil_r.
  auto.
Qed.

Lemma chat_aborts_when_screenshot_fails_witness :
  let run := ComputerUseAgent.chat (env_with down up [] []) "say hello" ready in
  fst run = Throw "sandbox unreachable" /\
  desktop (snd run) = desktop ready /\
  conversationHistory (snd run) = conversationHistory ready ++ [user_turn "say hello"] /\
  provider_requests (trace (snd run)) = provider_requests (trace ready) /\
  executor_calls (trace (snd run)) = executor_calls (trace ready).
Proof.
  apply (chat_aborts_when_screenshot_fails (env_with down up [] []) "say hello" ready
           "sandbox unreachable").
  right. split; [exists "sbx"; reflexivity|]. left. reflexivity.
Defined.

(** X10: when the first completion request of a turn fails, [chat] throws
    the provider's error; nothing is rolled back: the history keeps the
    instruction turn, no assistant turn is added and no tool is executed. *)
Theorem chat_aborts_when_provider_fails (env : Env) (userMessage : string)
    (s : State) (path img e : string) :
  screenshot_ok env s path img ->
  next_reply env s = Failed e ->
  let run := ComputerUseAgent.chat env userMessage s in
  fst run = Throw e /\
  conversationHistory (snd run) = conversationHistory s ++ [user_turn userMessage] /\
  provider_requests (trace (snd run)) =
    provider_requests (trace s) ++ [first_request_of s userMessage img] /\
  executor_calls (trace (snd run)) = executor_calls (trace s).
Proof.
  intros Hok Hreply run. subst run.
  rewrite (chat_provider_failed env userMessage s path img e Hok Hreply).
  cbn [fst snd conversationHistory trace].
  rewrite provider_requests_app, executor_calls_app. simpl. rewrite app_nil_r. auto.
Qed.

Lemma chat_aborts_when_provider_fails_witness :
  let run := ComputerUseAgent.chat (env_with up down [] []) "say hello" ready in
  fst run = Throw "provider unavailable" /\
  conversationHistory (snd run) = conversationHistory ready ++ [user_turn "say hello"] /\
  provider_requests (trace (snd run)) =
    provider_requests (trace ready) ++ [first_request_of ready "say hello" "aW1n"] /\
  executor_calls (trace (snd run)) = executor_calls (trace ready).
Proof.
  apply (chat_aborts_when_provider_fails (env_with up down [] []) "say hello" ready
           "/tmp/screenshot.png" "aW1n" "provider unavailable").
  - split; [exists "sbx"; reflexivity | split; reflexivity].
  - reflexivity.
Defined.

(** X11: when the follow-up request fails, [chat] throws the provider's
    error after every requested action has been executed; the history keeps
    the instruction turn and the assistant turn with the requests, and no
    final assistant text is added. *)
Theorem chat_aborts_when_follow_up_fails (env : Env) (userMessage : string)
    (s : State) (path img e : string) (response : Response) :
  screenshot_ok env s path img ->
  next_reply env s = Ok response ->
  action_requests (response_content response) <> [] ->
  second_reply env s = Failed e ->
  let run := ComputerUseAgent.chat env userMessage s in
  fst run = Throw e /\
  conversationHistory (snd run) =
    conversationHistory s ++ [user_turn userMessage; assistant_turn response] /\
  executor_calls (trace (snd run)) =
    executor_calls (trace s) ++
    map invocation (action_requests (response_content response)) /\
  List.length (provider_requests (trace (snd run))) =
    (List.length (provider_requests (trace s)) + 2)%nat.
Proof.
  intros Hok Hreply Hsome Hsecond run. subst run.
  destruct (chat_with_actions env userMessage s path img response Hok Hreply Hsome)
    as (results & t & _ & He & Hp & Hrun).
  cbv zeta in Hrun. rewrite Hsecond in Hrun. rewrite Hrun.
  cbn [fst snd conversationHistory trace].
  rewrite !executor_calls_app, !provider_requests_app, He, Hp, !length_app.
  simpl. rewrite app_nil_r. repeat split; auto.
Qed.

Lemma chat_aborts_when_follow_up_fails_witness :
  let run := ComputerUseAgent.chat
               (env_with up (fun n => (n <? 1)%nat) [screenshot_request] [])
               "take a screenshot" ready in
  fst run = Throw "provider unavailable" /\
  conversationHistory (snd run) =
    conversationHistory ready ++
    [user_turn "take a screenshot"; assistant_turn (mkResponse [screenshot_request])] /\
  executor_calls (trace (snd run)) =
    executor_calls (trace ready) ++
    map invocation (action_requests (response_content (mkResponse [screenshot_request]))) /\
  List.length (provider_requests (trace (snd run))) =
    (List.length (provider_requests (trace ready)) + 2)%nat.
Proof.
  apply (chat_aborts_when_follow_up_fails
           (env_with up (fun n => (n <? 1)%nat) [screenshot_request] [])
           "take a screenshot" ready "/tmp/screenshot.png" "aW1n"
           "provider unavailable" (mkResponse [screenshot_request])).
  - split; [exists "sbx"; reflexivity | split; reflexivity].
  - reflexivity.
  - simpl. discriminate.
  - reflexivity.
Defined.

(** ** What every turn keeps *)

Lemma session_events_keep_sandbox (t : list event) :
  Forall session_event t ->
  ~ In Create (sandbox_calls t) /\ ~ In Kill (sandbox_calls t).
Proof.
  induction t as [|ev t IH]; simpl; [tauto|].
  intro Hall. inversion Hall as [|? ? Hev Hall']; subst.
  destruct ev as [c| | | |]; simpl; try (apply IH; exact Hall').
  destruct c; simpl in *; try tauto;
    (split; intros [H|H]; try discriminate H;
     [apply (proj1 (IH Hall')) | apply (proj2 (IH Hall'))]; exact H).
Qed.

(** X12: whatever the environment answers and however the turn ends, [chat]
    never changes the session handle, never removes or rewrites an entry of
    the history (it appends the instruction turn, then possibly more), and
    never creates or terminates a sandbox. *)
Theorem chat_only_appends (env : Env) (userMessage : string) (s : State) :
  let s' := snd (ComputerUseAgent.chat env userMessage s) in
  desktop s' = desktop s /\
  (exists later,
     conversationHistory s' = conversationHistory s ++ user_turn userMessage :: later) /\
  exists t,
    trace s' = trace s ++ t /\
    ~ In Create (sandbox_calls t) /\ ~ In Kill (sandbox_calls t).
Proof.
  intro s'. subst s'. unfold ComputerUseAgent.chat. rewrite bind_push_history.
  match goal with
  | |- context [try_catch ?m ?h ?s1] =>
      assert (Hrest : always session_event (try_catch m h))
  end.
  { unfold ComputerUseAgent.follow_up. auto 30 with session. }
  match goal with
  | |- context [try_catch ?m ?h ?s1] => destruct (Hrest s1) as (Hd & [l Hl] & t & Ht & Hall)
  end.
  cbn [desktop conversationHistory trace] in *.
  split; [exact Hd|]. split.
  - exists l. rewrite Hl, <- app_assoc. reflexivity.
  - exists t. split; [exact Ht|]. apply session_events_keep_sandbox. exact Hall.
Qed.

(** ** What a turn returns and what the next turn sends *)

(** X13: the string returned by [chat] is the concatenation of the text
    fragments of the first response, followed, when actions were requested,
    by each text fragment of the follow-up response preceded by a newline;
    when that is the empty string the fallback is returned instead.  The
    returned string is also the content of the assistant turn appended last
    to the history. *)
Theorem chat_returned_text (env : Env) (userMessage out : string) (s s' : State) :
  ComputerUseAgent.chat env userMessage s = (Ret out, s') ->
  exists response,
    next_reply env s = Ok response /\
    match action_requests (response_content response) with
    | [] => out = or_fallback (join (text_fragments (response_content response)))
    | _ :: _ =>
        exists followUp,
          second_reply env s = Ok followUp /\
          out = or_fallback
                  (join (text_fragments (response_content response)) ++
                   join (map (append newline)
                           (text_fragments (response_content followUp))))%string
    end /\
    exists earlier, conversationHistory s' = earlier ++ [final_turn out].
Proof.
  intro Hrun.
  destruct (chat_returns env userMessage out s s' Hrun)
    as (path & img & response & Hok & Hreply).
  exists response. split; [exact Hreply|].
  destruct (action_requests (response_content response)) as [|r rs] eqn:Hreq.
  - pose proof (chat_no_actions env userMessage s path img response Hok Hreply Hreq) as H.
    cbv zeta in H. rewrite H in Hrun. injection Hrun as <- <-.
    split; [reflexivity|].
    exists (conversationHistory s ++ [user_turn userMessage]).
    cbn [conversationHistory]. rewrite <- app_assoc. reflexivity.
  - assert (Hsome : action_requests (response_content response) <> [])
      by (rewrite Hreq; discriminate).
    destruct (chat_with_actions env userMessage s path img response Hok Hreply Hsome)
      as (results & t & _ & _ & _ & H).
    cbv zeta in H. destruct (second_reply env s) as [followUp|e];
      rewrite H in Hrun; [|discriminate].
    injection Hrun as <- <-. rewrite append_texts_spec.
    split; [exists followUp; split; reflexivity|].
    eexists. reflexivity.
Qed.

Lemma chat_returned_text_witness :
  exists response,
    next_reply (demo_env [BText "Taking "; screenshot_request; BText "one."]
                  [BText "Done."]) ready = Ok response /\
    match action_requests (response_content response) with
    | [] => ("Taking one." ++ newline ++ "Done.")%string =
            or_fallback (join (text_fragments (response_content response)))
    | _ :: _ =>
        exists followUp,
          second_reply (demo_env [BText "Taking "; screenshot_request; BText "one."]
                          [BText "Done."]) ready = Ok followUp /\
          ("Taking one." ++ newline ++ "Done.")%string =
          or_fallback
            (join (text_fragments (response_content response)) ++
             join (map (append newline)
                     (text_fragments (response_content followUp))))%string
    end /\
    exists earlier,
      conversationHistory
        (snd (ComputerUseAgent.chat
                (demo_env [BText "Taking "; screenshot_request; BText "one."]
                   [BText "Done."]) "take a screenshot" ready))
      = earlier ++ [final_turn ("Taking one." ++ newline ++ "Done.")].
Proof.
  apply (chat_returned_text
           (demo_env [BText "Taking "; screenshot_request; BText "one."] [BText "Done."])
           "take a screenshot" ("Taking one." ++ newline ++ "Done.") ready).
  vm_compute. reflexivity.
Defined.

Lemma chat_first_request (env : Env) (userMessage : string) (s : State)
    (path img : string) :
  screenshot_ok env s path img ->
  exists later,
    provider_requests (trace (snd (ComputerUseAgent.chat env userMessage s))) =
    provider_requests (trace s) ++ first_request_of s userMessage img :: later.
Proof.
  intro Hok.
  destruct (next_reply env s) as [response|e] eqn:Hreply.
  - destruct (chat_calls env userMessage s path img response Hok Hreply)
      as (_ & Hnone & Hsome).
    destruct (action_requests (response_content response)) as [|r rs] eqn:Hk.
    + rewrite Hnone by reflexivity. eauto.
    + destruct Hsome as (t & followUp & _ & _ & _ & Hp); [discriminate|].
      rewrite Hp. eauto.
  - rewrite (chat_provider_failed env userMessage s path img e Hok Hreply).
    cbn [snd trace]. rewrite provider_requests_app. simpl. eauto.
Qed.

(** X14: context carries forward.  After a turn that returned [out1] for
    the instruction [m1], the first request of the next turn carries the
    whole earlier history, then the exchange of that turn (its instruction,
    its assistant turn of requests if it had one, its final text [out1]),
    then the new instruction and the new screenshot. *)
Theorem context_carries_forward (env : Env) (m1 m2 out1 : string) (s s1 : State)
    (path img : string) :
  ComputerUseAgent.chat env m1 s = (Ret out1, s1) ->
  screenshot_ok env s1 path img ->
  exists middle later,
    (middle = [] \/ exists response, middle = [assistant_turn response]) /\
    conversationHistory s1 =
      conversationHistory s ++ [user_turn m1] ++ middle ++ [final_turn out1] /\
    provider_requests (trace (snd (ComputerUseAgent.chat env m2 s1))) =
      provider_requests (trace s1) ++
      mkRequest 4096 ComputerUseAgent.SYSTEM_PROMPT
        (map to_entry
           (conversationHistory s ++ [user_turn m1] ++ middle ++ [final_turn out1]) ++
         [mkEntry user [BText m2]; mkEntry user [BImage img; BText ""]]) :: later.
Proof.
  intros Hrun Hok2.
  destruct (chat_returns env m1 out1 s s1 Hrun)
    as (path1 & img1 & response & Hok & Hreply).
  destruct (chat_first_request env m2 s1 path img Hok2) as [later Hlater].
  assert (Hhist : exists middle,
            (middle = [] \/ exists response, middle = [assistant_turn response]) /\
            conversationHistory s1 =
            conversationHistory s ++ [user_turn m1] ++ middle ++ [final_turn out1]).
  { destruct (action_requests (response_content response)) as [|r rs] eqn:Hreq.
    - pose proof (chat_no_actions env m1 s path1 img1 response Hok Hreply Hreq) as H.
      cbv zeta in H. rewrite H in Hrun. injection Hrun as <- <-.
      exists []. split; [left; reflexivity | reflexivity].
    - assert (Hsome : action_requests (response_content response) <> [])
        by (rewrite Hreq; discriminate).
      destruct (chat_with_actions env m1 s path1 img1 response Hok Hreply Hsome)
        as (results & t & _ & _ & _ & H).
      cbv zeta in H. destruct (second_reply env s); rewrite H in Hrun; [|discriminate].
      injection Hrun as <- <-.
      exists [assistant_turn response]. split; [right; eauto|].
      cbn [conversationHistory]. rewrite <- !app_assoc. reflexivity. }
  destruct Hhist as (middle & Hmid & Hhist).
  exists middle, later. split; [exact Hmid|]. split; [exact Hhist|].
  rewrite Hlater. unfold first_request_of, ComputerUseAgent.first_request.
  rewrite Hhist, !map_app, <- !app_assoc. reflexivity.
Qed.

Lemma context_carries_forward_witness :
  exists middle later,
    (middle = [] \/ exists response, middle = [assistant_turn response]) /\
    conversationHistory
      (snd (ComputerUseAgent.chat (demo_env [BText "hello"] [BText "again"])
              "say hello" ready)) =
      conversationHistory ready ++ [user_turn "say hello"] ++ middle ++
      [final_turn "hello"] /\
    provider_requests
      (trace (snd (ComputerUseAgent.chat (demo_env [BText "hello"] [BText "again"])
                     "say it again"
                     (snd (ComputerUseAgent.chat
                             (demo_env [BText "hello"] [BText "again"])
                             "say hello" ready))))) =
      provider_requests
        (trace (snd (ComputerUseAgent.chat (demo_env [BText "hello"] [BText "again"])
                       "say hello" ready))) ++
      mkRequest 4096 ComputerUseAgent.SYSTEM_PROMPT
        (map to_entry
           (conversationHistory ready ++ [user_turn "say hello"] ++ middle ++
            [final_turn "hello"]) ++
         [mkEntry user [BText "say it again"];
          mkEntry user [BImage "aW1n"; BText ""]]) :: later.
Proof.
  apply (context_carries_forward (demo_env [BText "hello"] [BText "again"])
           "say hello" "say it again" "hello" ready
           (snd (ComputerUseAgent.chat (demo_env [BText "hello"] [BText "again"])
                   "say hello" ready))
           "/tmp/screenshot.png" "aW1n").
  - reflexivity.
  - split; [exists "sbx"; reflexivity | split; reflexivity].
Defined.

(** ** The entry point of [src/index.ts] *)

Lemma initialize_run (env : Env) (s : State) :
  ComputerUseAgent.initialize env s =
  match sandbox_reply env (List.length (sandbox_calls (trace s))) with
  | Ok sandboxId =>
      (Ret tt, mkState (Some sandboxId) (conversationHistory s)
                       (trace s ++ [ESandbox Create]))
  | Failed e => (Throw e, add_events s [ESandbox Create])
  end.
Proof.
  unfold ComputerUseAgent.initialize. rewrite try_catch_rethrow.
  unfold bind. rewrite sandbox_run.
  destruct (sandbox_reply env _); reflexivity.
Qed.

Lemma cleanup_run (env : Env) (s : State) :
  ComputerUseAgent.cleanup env s =
  (Ret tt,
   add_events s match desktop s with
                | Some _ => [ESandbox Kill]
                | None => []
                end).
Proof.
  unfold ComputerUseAgent.cleanup. rewrite bind_get_desktop.
  destruct s as [[d|] history events]; cbn [desktop].
  - unfold try_catch, bind. rewrite sandbox_run.
    destruct (sandbox_reply env _); reflexivity.
  - unfold ret, add_events. cbn [desktop conversationHistory trace].
    rewrite app_nil_r. reflexivity.
Qed.

Lemma bind_returns {A B} (m : M A) (k : A -> M B) (s s' : State) (b : B) :
  bind m k s = (Ret b, s') ->
  exists a s1, m s = (Ret a, s1) /\ k a s1 = (Ret b, s').
Proof.
  unfold bind. destruct (m s) as [[a|e] s1]; [eauto | discriminate].
Qed.

(** The sandbox calls of [main]: a run that ends normally created the
    sandbox first and terminated it last; a run that exits never terminated
    it. *)
Lemma main_sandbox_calls (env : Env) :
  exists status s',
    ComputerUseAgent.main env new_agent = (Ret status, s') /\
    match status with
    | Completed =>
        exists calls,
          sandbox_calls (trace s') = Create :: calls ++ [Kill] /\
          ~ In Create calls /\ ~ In Kill calls
    | Exited code =>
        code = 1%nat /\ ~ In Kill (sandbox_calls (trace s'))
    end.
Proof.
  unfold ComputerUseAgent.main.
  set (tasks := bind (ComputerUseAgent.chat env ComputerUseAgent.TASK_1)
                  (fun _ => bind (sleep (Some (Num 5000)))
                  (fun _ => bind (ComputerUseAgent.chat env ComputerUseAgent.TASK_2)
                  (fun _ => ret Completed)))).
  assert (Htasks : always session_event tasks).
  { unfold tasks.
    apply always_bind; [apply always_chat | intro].
    apply always_bind; [apply always_sleep; exact I | intro].
    apply always_bind; [apply always_chat | intro]. apply always_ret. }
  unfold bind at 1. unfold try_catch. unfold bind at 1.
  rewrite initialize_run. simpl sandbox_calls. simpl List.length.
  destruct (sandbox_reply env 0) as [sandboxId|e].
  - fold tasks.
    set (s1 := mkState (Some sandboxId) (conversationHistory new_agent)
                 (trace new_agent ++ [ESandbox Create])).
    destruct (Htasks s1) as (Hd & _ & t & Ht & Hall).
    destruct (session_events_keep_sandbox t Hall) as [HnoCreate HnoKill].
    destruct (tasks s1) as [[status|e] s2] eqn:Hrun; cbn [snd] in *.
    + assert (status = Completed).
      { unfold tasks in Hrun.
        apply bind_returns in Hrun. destruct Hrun as (? & ? & _ & Hrun).
        apply bind_returns in Hrun. destruct Hrun as (? & ? & _ & Hrun).
        apply bind_returns in Hrun. destruct Hrun as (? & ? & _ & Hrun).
        injection Hrun as <- _. reflexivity. }
      subst status.
      exists Completed. eexists. split.
      * erewrite bind_run; [|apply cleanup_run]. reflexivity.
      * exists (sandbox_calls t). rewrite Hd. unfold s1 at 1.
        cbn [desktop add_events trace]. rewrite Ht. unfold s1. cbn [trace].
        rewrite !sandbox_calls_app. simpl. auto.
    + exists (Exited 1). eexists. split; [reflexivity|].
      split; [reflexivity|]. rewrite Ht. unfold s1. cbn [trace].
      rewrite !sandbox_calls_app. simpl. intros [H|H]; [discriminate | auto].
  - exists (Exited 1). eexists. split; [reflexivity|].
    split; [reflexivity|]. simpl. intros [H|[]]. discriminate.
Qed.

(** X15: [main] never throws, and its outcome is decided by three steps in
    order: creating the sandbox, the first task and, after a pause of
    5000 ms, the second task.  When the creation or a task throws, [main]
    exits with status 1 right there: the later steps are not run and the
    sandbox, if one was created, is never terminated.  Only when all three
    returned does [main] end normally, and then it terminates the sandbox as
    its last call. *)
Theorem main_terminates_sandbox_only_on_success (env : Env) :
  let created := ComputerUseAgent.initialize env new_agent in
  let first := ComputerUseAgent.chat env ComputerUseAgent.TASK_1 (snd created) in
  let second :=
    ComputerUseAgent.chat env ComputerUseAgent.TASK_2
      (add_events (snd first) [ESleep (Some (Num 5000))]) in
  ComputerUseAgent.main env new_agent =
    match fst created with
    | Throw _ => (Ret (Exited 1), snd created)
    | Ret _ =>
        match fst first with
        | Throw _ => (Ret (Exited 1), snd first)
        | Ret _ =>
            match fst second with
            | Throw _ => (Ret (Exited 1), snd second)
            | Ret _ => (Ret Completed, add_events (snd second) [ESandbox Kill])
            end
        end
    end /\
  exists status s',
    ComputerUseAgent.main env new_agent = (Ret status, s') /\
    match status with
    | Completed =>
        exists calls,
          sandbox_calls (trace s') = Create :: calls ++ [Kill] /\
          ~ In Create calls /\ ~ In Kill calls
    | Exited code =>
        code = 1%nat /\ ~ In Kill (sandbox_calls (trace s'))
    end.
Proof.
  intros created first second. split; [|apply main_sandbox_calls].
  unfold ComputerUseAgent.main. unfold bind at 1. unfold try_catch.
  destruct created as [[[]|e] s1] eqn:Hcreated; cbn [fst snd] in *.
  2:{ erewrite bind_run_throw; [|exact Hcreated]. reflexivity. }
  erewrite bind_run; [|exact Hcreated].
  assert (Hd1 : exists sandboxId, desktop s1 = Some sandboxId).
  { unfold created in Hcreated. rewrite initialize_run in Hcreated.
    destruct (sandbox_reply env _) as [sandboxId|e]; [|discriminate].
    injection Hcreated as <-. eexists. reflexivity. }
  destruct Hd1 as [sandboxId Hd1].
  pose proof (always_chat env ComputerUseAgent.TASK_1 s1) as (Hd2 & _).
  fold first in Hd2.
  destruct first as [[out1|e] s2] eqn:Hfirst; cbn [fst snd] in *.
  2:{ erewrite bind_run_throw; [|exact Hfirst]. reflexivity. }
  erewrite bind_run; [|exact Hfirst].
  unfold sleep at 1. rewrite bind_record.
  change (mkState (desktop s2) (conversationHistory s2)
            (trace s2 ++ [ESleep (Some (Num 5000))]))
    with (add_events s2 [ESleep (Some (Num 5000))]).
  pose proof (always_chat env ComputerUseAgent.TASK_2
                (add_events s2 [ESleep (Some (Num 5000))])) as (Hd3 & _).
  fold second in Hd3. cbn [add_events desktop] in Hd3.
  destruct second as [[out2|e] s3] eqn:Hsecond; cbn [fst snd] in *.
  2:{ erewrite bind_run_throw; [|exact Hsecond]. reflexivity. }
  erewrite bind_run; [|exact Hsecond].
  unfold ret at 1.
  erewrite bind_run; [|apply cleanup_run].
  rewrite Hd3, Hd2, Hd1. reflexivity.
Qed.

(** ** The interactive agent *)

Lemma interactive_run_tool_calls (env : Env) (toolCalls : list ToolCall) :
  forall (s : State) (d : string),
    desktop s = Some d ->
    exists t,
      InteractiveComputerAgent.run_tool_calls env toolCalls s =
        (Ret tt, add_events s t) /\
      executor_calls t = map invocation toolCalls /\
      provider_requests t = [].
Proof.
  induction toolCalls as [|tc rest IH]; intros s d Hd; simpl.
  - exists []. rewrite add_events_nil. auto.
  - destruct (executeToolCall_interactive_initialized env (tc_name tc) (tc_input tc) s d Hd)
      as (r & s1 & Hrun & Hd1 & Hh1 & t1 & Ht1 & He1 & Hp1).
    assert (Hs1 : s1 = add_events s (EExec (tc_name tc) (tc_input tc) :: t1)).
    { destruct s1. unfold add_events. simpl in *. congruence. }
    erewrite bind_run; [|exact Hrun].
    destruct (IH s1 d) as (t2 & Hrun2 & He2 & Hp2); [congruence|].
    exists ((EExec (tc_name tc) (tc_input tc) :: t1) ++ t2).
    rewrite Hrun2, Hs1, add_events_add_events.
    rewrite executor_calls_app, provider_requests_app. simpl.
    rewrite He1, He2, Hp1, Hp2. auto.
Qed.

(** X16: a turn of the interactive agent whose screenshot and request are
    answered makes exactly one completion request, whose final entry holds
    the screenshot and the instruction text (the instruction is also the
    entry before it).  It executes the requested actions in order and drops
    their results, returns the concatenated text of the response with no
    fallback (the empty string when there is no text) and appends exactly
    two entries to the history, whether or not actions were requested. *)
Theorem interactive_turn (env : Env) (userMessage : string) (s : State)
    (path img : string) (response : Response) :
  screenshot_ok env s path img ->
  next_reply env s = Ok response ->
  let out := join (text_fragments (response_content response)) in
  exists t,
    InteractiveComputerAgent.chat env userMessage s =
    (Ret out,
     mkState (desktop s)
       (conversationHistory s ++ [user_turn userMessage; final_turn out])
       (trace s ++
        [ESandbox Screenshot; EReadFile path;
         EProvider (mkRequest 2048 InteractiveComputerAgent.SYSTEM_PROMPT
                      (map to_entry (conversationHistory s) ++
                       [mkEntry user [BText userMessage];
                        mkEntry user [BImage img; BText userMessage]]))] ++ t)) /\
    executor_calls t = map invocation (action_requests (response_content response)) /\
    provider_requests t = [].
Proof.
  intros Hok Hreply out.
  pose proof Hok as ([d Hd] & _).
  unfold InteractiveComputerAgent.chat.
  rewrite bind_push_history, try_catch_rethrow.
  change (InteractiveComputerAgent.takeScreenshot env)
    with (ComputerUseAgent.takeScreenshot env).
  erewrite bind_run; [|apply takeScreenshot_ok; exact Hok].
  rewrite bind_get_history. cbn [conversationHistory desktop trace].
  erewrite bind_run.
  2:{ apply messages_create_ok. unfold next_reply in *.
      cbn [trace]. rewrite provider_requests_app. simpl. rewrite app_nil_r.
      exact Hreply. }
  rewrite collect_spec. cbn [Datatypes.app append conversationHistory desktop trace].
  match goal with
  | |- context [bind _ _ ?s1] =>
      destruct (interactive_run_tool_calls env
                  (action_requests (response_content response)) s1 d Hd)
        as (t & Hrun & He & Hp)
  end.
  exists (match action_requests (response_content response) with
          | [] => []
          | _ :: _ => t
          end).
  destruct (action_requests (response_content response)) as [|r rs] eqn:Hreq.
  - simpl. unfold bind, ret, push_history. simpl.
    unfold InteractiveComputerAgent.request. rewrite map_app, <- !app_assoc. simpl.
    auto.
  - cbn [List.length Nat.ltb Nat.leb].
    erewrite bind_run; [|exact Hrun].
    unfold bind, ret, push_history, add_events. simpl.
    unfold InteractiveComputerAgent.request. rewrite map_app, <- !app_assoc. simpl.
    auto.
Qed.

Lemma interactive_turn_witness :
  exists t,
    InteractiveComputerAgent.chat (demo_env [screenshot_request] []) "take a screenshot"
      ready =
    (Ret (join (text_fragments [screenshot_request])),
     mkState (desktop ready)
       (conversationHistory ready ++
        [user_turn "take a screenshot";
         final_turn (join (text_fragments [screenshot_request]))])
       (trace ready ++
        [ESandbox Screenshot; EReadFile "/tmp/screenshot.png";
         EProvider (mkRequest 2048 InteractiveComputerAgent.SYSTEM_PROMPT
                      (map to_entry (conversationHistory ready) ++
                       [mkEntry user [BText "take a screenshot"];
                        mkEntry user [BImage "aW1n"; BText "take a screenshot"]]))] ++ t)) /\
    executor_calls t = map invocation (action_requests [screenshot_request]) /\
    provider_requests t = [].
Proof.
  apply (interactive_turn (demo_env [screenshot_request] []) "take a screenshot" ready
           "/tmp/screenshot.png" "aW1n" (mkResponse [screenshot_request])).
  - apply demo_screenshot_ok.
  - reflexivity.
Defined.

(** X17: in the interactive executor a scroll whose amount is omitted, zero
    or not a number falls back to 3: the page key is pressed exactly 3 times
    (the sandbox answering), so a request to scroll 0 times scrolls 3
    times. *)
Theorem interactive_scroll_falls_back_to_three (env : Env) (input : ToolInput)
    (s : State) (d : string) :
  desktop s = Some d ->
  amount input = None \/
  amount input = Some NaN \/
  (exists q, amount input = Some (Num q) /\ (q == 0)%Q) ->
  sandbox_answers env s 3 ->
  InteractiveComputerAgent.executeToolCall env "scroll" input s =
  (Ret success,
   add_events s
     (EExec "scroll" input ::
      repeat (ESandbox (Press (Some (page_key (direction input))))) 3)).
Proof.
  intros Hd Hfalsy Hans.
  assert (Hcount : loop_count
            (js_or (InteractiveComputerAgent.amount_or_default input) (Num 3)) = 3%nat).
  { unfold InteractiveComputerAgent.amount_or_default, js_or.
    destruct Hfalsy as [-> | [-> | (q & -> & Hq)]]; try reflexivity.
    simpl. apply Qeq_bool_iff in Hq. rewrite Hq. reflexivity. }
  unfold InteractiveComputerAgent.executeToolCall.
  rewrite bind_record, bind_get_desktop. cbn [desktop]. rewrite Hd.
  simpl String.eqb. cbv zeta. rewrite Hcount.
  unfold try_catch.
  erewrite bind_run.
  2:{ apply (repeat_sandbox_answered env _ (ret tt) []);
        [apply ret_tt_adds_nothing | reflexivity |].
      apply (sandbox_answers_after_exec env s "scroll" input) in Hans.
      unfold add_events in Hans. rewrite Hd in Hans. exact Hans. }
  rewrite rounds_nil. unfold ret, add_events. cbn [trace desktop conversationHistory].
  rewrite <- app_assoc, Hd. reflexivity.
Qed.

Lemma interactive_scroll_falls_back_to_three_witness :
  InteractiveComputerAgent.executeToolCall (demo_env [] []) "scroll"
    (scroll_by "down" 0) ready =
  (Ret success,
   add_events ready
     (EExec "scroll" (scroll_by "down" 0) ::
      repeat (ESandbox (Press (Some (page_key (direction (scroll_by "down" 0)))))) 3)).
Proof.
  apply (interactive_scroll_falls_back_to_three (demo_env [] []) (scroll_by "down" 0)
           ready "sbx").
  - reflexivity.
  - right. right. exists 0%Q. split; reflexivity.
  - intros i _. exists "/tmp/screenshot.png". reflexivity.
Defined.

Lemma interactive_cleanup_returns (env : Env) (s : State) :
  exists s', InteractiveComputerAgent.cleanup env s = (Ret tt, s').
Proof.
  change (InteractiveComputerAgent.cleanup env) with (ComputerUseAgent.cleanup env).
  rewrite cleanup_run. eauto.
Qed.

(** X18: an interactive session never throws, whatever the turns do: a turn
    that fails is dropped and the next line is read.  The first line that
    reads "exit", in any letter case, ends the session: the lines after it
    are never handled. *)
Theorem session_ends_at_exit (env : Env) (before after : list string)
    (quit : string) (s : State) :
  toLowerCase quit = "exit" ->
  InteractiveComputerAgent.startInteractiveSession env (before ++ quit :: after) s =
  InteractiveComputerAgent.startInteractiveSession env (before ++ [quit]) s /\
  exists s',
    InteractiveComputerAgent.startInteractiveSession env (before ++ quit :: after) s =
    (Ret tt, s').
Proof.
  intro Hquit. revert s. induction before as [|line before IH]; intro s; simpl.
  - rewrite Hquit. simpl. split; [reflexivity|]. apply interactive_cleanup_returns.
  - destruct (toLowerCase line =? "exit").
    + split; [reflexivity|]. apply interactive_cleanup_returns.
    + unfold bind at 1 3 5. unfold try_catch.
      destruct (bind (InteractiveComputerAgent.chat env line) (fun _ => ret tt) s)
        as [[[]|e] s1]; simpl; apply IH.
Qed.

Lemma session_ends_at_exit_witness :
  InteractiveComputerAgent.startInteractiveSession (demo_env [BText "hello"] [])
    (["say hello"] ++ "Exit" :: ["say more"]) ready =
  InteractiveComputerAgent.startInteractiveSession (demo_env [BText "hello"] [])
    (["say hello"] ++ ["Exit"]) ready /\
  exists s',
    InteractiveComputerAgent.startInteractiveSession (demo_env [BText "hello"] [])
      (["say hello"] ++ "Exit" :: ["say more"]) ready = (Ret tt, s').
Proof.
  apply (session_ends_at_exit (demo_env [BText "hello"] []) ["say hello"] ["say more"]
           "Exit" ready).
  reflexivity.
Defined.

(** ** [DesktopController] *)

(** X19: a double click is two clicks at the same coordinates, passed as
    given (not rounded), with a pause of 100 ms between them; when the first
    click is refused the error is thrown and no second click is made.  The
    [button] option never reaches the sandbox. *)
Theorem double_click_is_two_clicks (env : Env) (options : DesktopController.ClickOptions)
    (s : State) :
  DesktopController.doubleClick options = Some true ->
  let c := Click (DesktopController.click_x options) (DesktopController.click_y options) in
  DesktopController.click env options s =
  match sandbox_reply env (List.length (sandbox_calls (trace s))) with
  | Failed e => (Throw e, add_events s [ESandbox c])
  | Ok _ =>
      match sandbox_reply env (S (List.length (sandbox_calls (trace s)))) with
      | Ok _ =>
          (Ret tt, add_events s [ESandbox c; ESleep (Some (Num 100)); ESandbox c])
      | Failed e =>
          (Throw e, add_events s [ESandbox c; ESleep (Some (Num 100)); ESandbox c])
      end
  end.
Proof.
  intros Hdouble c. unfold DesktopController.click. rewrite Hdouble.
  unfold bind. rewrite sandbox_run.
  destruct (sandbox_reply env (List.length (sandbox_calls (trace s)))) as [v|e];
    simpl; [|reflexivity].
  rewrite sandbox_run. cbn [trace desktop conversationHistory].
  rewrite !sandbox_calls_app. simpl. rewrite app_nil_r, length_app. simpl.
  replace (List.length (sandbox_calls (trace s)) + 1)%nat
    with (S (List.length (sandbox_calls (trace s)))) by lia.
  unfold add_events.
  destruct (sandbox_reply env (S _)); simpl; rewrite <- !app_assoc; reflexivity.
Qed.

Lemma double_click_is_two_clicks_witness :
  DesktopController.click (demo_env [] [])
    (DesktopController.mkClickOptions (Num (5 # 2)) (Num 7) (Some "right") (Some true))
    ready =
  (Ret tt,
   add_events ready
     [ESandbox (Click (Num (5 # 2)) (Num 7)); ESleep (Some (Num 100));
      ESandbox (Click (Num (5 # 2)) (Num 7))]).
Proof.
  apply (double_click_is_two_clicks (demo_env [] [])
           (DesktopController.mkClickOptions (Num (5 # 2)) (Num 7) (Some "right")
              (Some true)) ready).
  reflexivity.
Defined.

(** X20: [pressKeys] presses the keys in the order given, pausing 50 ms
    after each one, when the sandbox answers every press. *)
Theorem pressKeys_in_order (env : Env) (keys : list string) (s : State) :
  sandbox_answers env s (List.length keys) ->
  DesktopController.pressKeys env keys s =
  (Ret tt,
   add_events s
     (flat_map (fun k => [ESandbox (Press (Some k)); ESleep (Some (Num 50))]) keys)).
Proof.
  revert s. induction keys as [|k keys IH]; intros s Hans; simpl.
  - rewrite add_events_nil. reflexivity.
  - destruct (sandbox_answered env (Press (Some k)) s _ Hans) as [v Hv].
    erewrite bind_run; [|exact Hv].
    unfold bind at 1. unfold sleep, record. cbn [add_events trace desktop conversationHistory].
    rewrite <- app_assoc. simpl.
    change (mkState (desktop s) (conversationHistory s)
              (trace s ++ [ESandbox (Press (Some k)); ESleep (Some (Num 50))]))
      with (add_events s [ESandbox (Press (Some k)); ESleep (Some (Num 50))]).
    rewrite IH.
    + rewrite add_events_add_events. reflexivity.
    + apply sandbox_answers_shift; [exact Hans | reflexivity].
Qed.

Lemma pressKeys_in_order_witness :
  DesktopController.pressKeys (demo_env [] []) ["ctrl+a"; "ctrl+c"] ready =
  (Ret tt,
   add_events ready
     (flat_map (fun k => [ESandbox (Press (Some k)); ESleep (Some (Num 50))])
        ["ctrl+a"; "ctrl+c"])).
Proof.
  apply (pressKeys_in_order (demo_env [] []) ["ctrl+a"; "ctrl+c"] ready).
  intros i _. exists "/tmp/screenshot.png". reflexivity.
Defined.

(** X21: [pressKeys] stops at the first key the sandbox refuses: the error
    is thrown, the refused key is not followed by a pause and the keys after
    it are not pressed. *)
Theorem pressKeys_stops_at_first_failure (env : Env) (before after : list string)
    (k e : string) (s : State) :
  sandbox_answers env s (List.length before) ->
  sandbox_reply env (List.length (sandbox_calls (trace s)) + List.length before)
    = Failed e ->
  DesktopController.pressKeys env (before ++ k :: after) s =
  (Throw e,
   add_events s
     (flat_map (fun k => [ESandbox (Press (Some k)); ESleep (Some (Num 50))]) before
      ++ [ESandbox (Press (Some k))])).
Proof.
  revert s. induction before as [|b before IH]; intros s Hans Hfail; simpl.
  - simpl in Hfail. rewrite Nat.add_0_r in Hfail.
    erewrite bind_run_throw; [reflexivity|]. apply sandbox_refused. exact Hfail.
  - destruct (sandbox_answered env (Press (Some b)) s _ Hans) as [v Hv].
    erewrite bind_run; [|exact Hv].
    unfold bind at 1. unfold sleep, record. cbn [add_events trace desktop conversationHistory].
    rewrite <- app_assoc. simpl.
    change (mkState (desktop s) (conversationHistory s)
              (trace s ++ [ESandbox (Press (Some b)); ESleep (Some (Num 50))]))
      with (add_events s [ESandbox (Press (Some b)); ESleep (Some (Num 50))]).
    rewrite IH.
    + rewrite add_events_add_events. reflexivity.
    + apply sandbox_answers_shift; [exact Hans | reflexivity].
    + cbn [add_events trace]. rewrite sandbox_calls_app, length_app. simpl.
      rewrite <- Hfail. f_equal. simpl. lia.
Qed.

Lemma pressKeys_stops_at_first_failure_witness :
  DesktopController.pressKeys (env_with (fun n => (n <? 1)%nat) up [] [])
    (["ctrl+a"] ++ "ctrl+c" :: ["ctrl+v"]) ready =
  (Throw "sandbox unreachable",
   add_events ready
     (flat_map (fun k => [ESandbox (Press (Some k)); ESleep (Some (Num 50))]) ["ctrl+a"]
      ++ [ESandbox (Press (Some "ctrl+c"))])).
Proof.
  apply (pressKeys_stops_at_first_failure (env_with (fun n => (n <? 1)%nat) up [] [])
           ["ctrl+a"] ["ctrl+v"] "ctrl+c" "sandbox unreachable" ready).
  - intros i Hi. exists "/tmp/screenshot.png".
    destruct i; [reflexivity | simpl in Hi; lia].
  - reflexivity.
Defined.

Lemma sleep_adds_event (ms : option number) (s : State) :
  sleep ms s = (Ret tt, add_events s [ESleep ms]).
Proof. reflexivity. Qed.

(** X22: [DesktopController.scroll] presses the page key of its direction
    once per iteration of [for (i = 0; i < amount; i++)], 3 times when the
    amount is omitted, and pauses 200 ms after every press (the sandbox
    answering). *)
Theorem controller_scroll_presses (env : Env) (direction : string)
    (amount : option number) (s : State) :
  let count := loop_count match amount with Some a => a | None => Num 3 end in
  let key := if direction =? "down" then "Page_Down" else "Page_Up" in
  sandbox_answers env s count ->
  DesktopController.scroll env direction amount s =
  (Ret tt,
   add_events s (rounds count (Press (Some key)) [ESleep (Some (Num 200))])).
Proof.
  intros count key Hans. unfold DesktopController.scroll.
  apply (repeat_sandbox_answered env (Press (Some key)) (sleep (Some (Num 200)))
           [ESleep (Some (Num 200))]).
  - intro s0. apply sleep_adds_event.
  - reflexivity.
  - exact Hans.
Qed.

Lemma controller_scroll_presses_witness :
  DesktopController.scroll (demo_env [] []) "up" (Some (Num (3 # 2))) ready =
  (Ret tt,
   add_events ready
     (rounds (loop_count (Num (3 # 2))) (Press (Some "Page_Up"))
        [ESleep (Some (Num 200))])).
Proof.
  apply (controller_scroll_presses (demo_env [] []) "up" (Some (Num (3 # 2))) ready).
  intros i _. exists "/tmp/screenshot.png". reflexivity.
Defined.

(** ** [TaskExecutor.retry] *)

Lemma retry_loop_returns (action : M unit) (maxAttempts delayMs : number)
    (remaining : nat) :
  forall (i : nat) (s : State),
    exists b s',
      TaskExecutor.retry_loop action maxAttempts delayMs remaining i s = (Ret b, s').
Proof.
  induction remaining as [|r IH]; intros i s; simpl.
  - exists false, s. reflexivity.
  - unfold try_catch.
    destruct (bind action (fun _ => ret true) s) as [[b|e] s1] eqn:Hact.
    + eauto.
    + match goal with |- context [if ?c then _ else _] => destruct c end.
      * unfold bind at 1. unfold DesktopController.wait. rewrite sleep_adds_event.
        apply IH.
      * unfold bind at 1. simpl. apply IH.
Qed.

(** X23: [retry] never throws, whatever the action does and whatever the
    number of attempts and the delay are: it always returns a boolean. *)
Theorem retry_never_throws (action : M unit) (maxAttempts delayMs : option number)
    (s : State) :
  exists b s', TaskExecutor.retry action maxAttempts delayMs s = (Ret b, s').
Proof. unfold TaskExecutor.retry. apply retry_loop_returns. Qed.

Lemma retry_loop_step (action : M unit) (maxAttempts delayMs : number)
    (remaining i : nat) (s : State) :
  TaskExecutor.retry_loop action maxAttempts delayMs (S remaining) i s =
  try_catch
    (action ;;; ret true)
    (fun error =>
       (if js_lt (Num (inject_Z (Z.of_nat i))) (TaskExecutor.js_sub maxAttempts (Num 1))
        then DesktopController.wait delayMs
        else ret tt) ;;;
       TaskExecutor.retry_loop action maxAttempts delayMs remaining (S i)) s.
Proof. reflexivity. Qed.

Lemma attempts_left (i n : nat) :
  js_lt (Num (inject_Z (Z.of_nat i)))
        (TaskExecutor.js_sub (Num (inject_Z (Z.of_nat n))) (Num 1))
  = (i + 1 <? n)%nat.
Proof.
  simpl. destruct (Qle_bool _ _) eqn:E.
  - apply Qle_bool_iff in E. unfold Qle in E. simpl in E.
    symmetry. apply Nat.ltb_ge. lia.
  - assert (H : ~ (inject_Z (Z.of_nat n) - 1 <= inject_Z (Z.of_nat i))%Q).
    { intro H. apply Qle_bool_iff in H. congruence. }
    unfold Qle in H. simpl in H.
    symmetry. apply Nat.ltb_lt. lia.
Qed.

Lemma loop_count_nat (n : nat) : loop_count (Num (inject_Z (Z.of_nat n))) = n.
Proof. simpl. rewrite Qceiling_Z. apply Nat2Z.id. Qed.

Lemma pressKey_answered (env : Env) (k : string) (s : State) (v : string) :
  sandbox_reply env (List.length (sandbox_calls (trace s))) = Ok v ->
  DesktopController.pressKey env (inr k) s =
  (Ret tt, add_events s [ESandbox (Press (Some k))]).
Proof.
  intro H. unfold DesktopController.pressKey.
  erewrite bind_run; [reflexivity|]. rewrite sandbox_run, H. reflexivity.
Qed.

Lemma pressKey_refused (env : Env) (k : string) (s : State) (e : string) :
  sandbox_reply env (List.length (sandbox_calls (trace s))) = Failed e ->
  DesktopController.pressKey env (inr k) s =
  (Throw e, add_events s [ESandbox (Press (Some k))]).
Proof.
  intro H. unfold DesktopController.pressKey.
  erewrite bind_run_throw; [reflexivity|]. apply sandbox_refused. exact H.
Qed.

Lemma sandbox_refuses_shift (env : Env) (s : State) (t : list event) (n : nat) :
  sandbox_refuses env s (S n) ->
  List.length (sandbox_calls t) = 1%nat ->
  sandbox_refuses env (add_events s t) n.
Proof.
  intros H Ht i Hi. cbn [add_events trace].
  rewrite sandbox_calls_app, length_app, Ht.
  destruct (H (S i)) as [v Hv]; [lia|].
  exists v. rewrite <- Hv. f_equal. lia.
Qed.

Lemma retry_loop_until_answered (env : Env) (k : string) (n : nat) (delayMs : number) :
  forall (j remaining i : nat) (s : State) (v : string),
    (i + remaining = n)%nat ->
    (j < remaining)%nat ->
    sandbox_refuses env s j ->
    sandbox_reply env (List.length (sandbox_calls (trace s)) + j) = Ok v ->
    TaskExecutor.retry_loop (DesktopController.pressKey env (inr k))
      (Num (inject_Z (Z.of_nat n))) delayMs remaining i s =
    (Ret true,
     add_events s (rounds j (Press (Some k)) [ESleep (Some delayMs)] ++
                   [ESandbox (Press (Some k))])).
Proof.
  induction j as [|j IH]; intros remaining i s v Hsum Hlt Href Hok;
    (destruct remaining as [|r]; [lia|]); cbn [TaskExecutor.retry_loop].
  - rewrite Nat.add_0_r in Hok. unfold try_catch.
    erewrite bind_run; [reflexivity|]. eapply pressKey_answered. exact Hok.
  - destruct (Href 0%nat) as [e He]; [lia|]. rewrite Nat.add_0_r in He.
    unfold try_catch.
    erewrite bind_run_throw; [|apply pressKey_refused; exact He].
    rewrite attempts_left.
    replace (i + 1 <? n)%nat with true by (symmetry; apply Nat.ltb_lt; lia).
    unfold bind at 1. unfold DesktopController.wait. rewrite sleep_adds_event.
    rewrite add_events_add_events.
    erewrite (IH r (S i)).
    + rewrite add_events_add_events. reflexivity.
    + lia.
    + lia.
    + apply sandbox_refuses_shift; [exact Href | reflexivity].
    + cbn [add_events trace]. rewrite sandbox_calls_app, length_app. simpl.
      rewrite <- Hok. f_equal. lia.
Qed.

Lemma retry_loop_gives_up (env : Env) (k : string) (n : nat) (delayMs : number) :
  forall (remaining i : nat) (s : State),
    (i + S remaining = n)%nat ->
    sandbox_refuses env s (S remaining) ->
    TaskExecutor.retry_loop (DesktopController.pressKey env (inr k))
      (Num (inject_Z (Z.of_nat n))) delayMs (S remaining) i s =
    (Ret false,
     add_events s (rounds remaining (Press (Some k)) [ESleep (Some delayMs)] ++
                   [ESandbox (Press (Some k))])).
Proof.
  induction remaining as [|r IH]; intros i s Hsum Href.
  - cbn [TaskExecutor.retry_loop]. destruct (Href 0%nat) as [e He]; [lia|]. rewrite Nat.add_0_r in He.
    unfold try_catch.
    erewrite bind_run_throw; [|apply pressKey_refused; exact He].
    rewrite attempts_left.
    replace (i + 1 <? n)%nat with false by (symmetry; apply Nat.ltb_ge; lia).
    reflexivity.
  - rewrite retry_loop_step.
    destruct (Href 0%nat) as [e He]; [lia|]. rewrite Nat.add_0_r in He.
    unfold try_catch.
    erewrite bind_run_throw; [|apply pressKey_refused; exact He].
    rewrite attempts_left.
    replace (i + 1 <? n)%nat with true by (symmetry; apply Nat.ltb_lt; lia).
    unfold bind at 1. unfold DesktopController.wait. rewrite sleep_adds_event.
    rewrite add_events_add_events.
    rewrite (IH (S i)).
    + rewrite add_events_add_events. reflexivity.
    + lia.
    + apply sandbox_refuses_shift; [exact Href | reflexivity].
Qed.

(** X24: retrying a key press that the sandbox refuses [j] times and then
    accepts, with more than [j] attempts allowed, returns [true] after
    exactly [j + 1] presses; each refused press is followed by one wait of
    the delay and nothing is done after the accepted one. *)
Theorem retry_until_answered (env : Env) (k : string) (n j : nat) (delayMs : number)
    (s : State) (v : string) :
  (j < n)%nat ->
  sandbox_refuses env s j ->
  sandbox_reply env (List.length (sandbox_calls (trace s)) + j) = Ok v ->
  TaskExecutor.retry (DesktopController.pressKey env (inr k))
    (Some (Num (inject_Z (Z.of_nat n)))) (Some delayMs) s =
  (Ret true,
   add_events s (rounds j (Press (Some k)) [ESleep (Some delayMs)] ++
                 [ESandbox (Press (Some k))])).
Proof.
  intros Hlt Href Hok. unfold TaskExecutor.retry. rewrite loop_count_nat.
  apply (retry_loop_until_answered env k n delayMs j n 0 s v); auto.
Qed.

Lemma retry_until_answered_witness :
  TaskExecutor.retry
    (DesktopController.pressKey (env_with (fun n => (1 <? n)%nat) up [] []) (inr "Return"))
    (Some (Num (inject_Z (Z.of_nat 3)))) (Some (Num 1000)) ready =
  (Ret true,
   add_events ready
     (rounds 2 (Press (Some "Return")) [ESleep (Some (Num 1000))] ++
      [ESandbox (Press (Some "Return"))])).
Proof.
  apply (retry_until_answered (env_with (fun n => (1 <? n)%nat) up [] []) "Return" 3 2
           (Num 1000) ready "/tmp/screenshot.png").
  - lia.
  - intros i Hi. exists "sandbox unreachable".
    destruct i as [|[|i]]; [reflexivity | reflexivity | lia].
  - reflexivity.
Defined.

(** X25: retrying a key press that the sandbox refuses every time returns
    [false] after exactly as many presses as attempts are allowed; it waits
    the delay between two attempts and does not wait after the last one. *)
Theorem retry_gives_up (env : Env) (k : string) (n : nat) (delayMs : number)
    (s : State) :
  sandbox_refuses env s (S n) ->
  TaskExecutor.retry (DesktopController.pressKey env (inr k))
    (Some (Num (inject_Z (Z.of_nat (S n))))) (Some delayMs) s =
  (Ret false,
   add_events s (rounds n (Press (Some k)) [ESleep (Some delayMs)] ++
                 [ESandbox (Press (Some k))])).
Proof.
  intros Href. unfold TaskExecutor.retry. rewrite loop_count_nat.
  apply (retry_loop_gives_up env k (S n) delayMs n 0 s); auto.
Qed.

Lemma retry_gives_up_witness :
  TaskExecutor.retry
    (DesktopController.pressKey (env_with down up [] []) (inr "Return"))
    (Some (Num (inject_Z (Z.of_nat 3)))) (Some (Num 1000)) ready =
  (Ret false,
   add_events ready
     (rounds 2 (Press (Some "Return")) [ESleep (Some (Num 1000))] ++
      [ESandbox (Press (Some "Return"))])).
Proof.
  apply (retry_gives_up (env_with down up [] []) "Return" 2 (Num 1000) ready).
  intros i _. exists "sandbox unreachable". reflexivity.
Defined.

(** ** The tool catalog *)

(** X26: [getToolDefinition] finds a tool exactly for the seven catalog
    names, the ones the executors dispatch on, and the tool it returns bears
    the name asked for; looking up the name of a catalog tool gives that
    very tool back (the names are pairwise distinct). *)
Theorem getToolDefinition_lookup :
  map Tools.name Tools.COMPUTER_TOOLS = COMPUTER_TOOLS /\
  (forall toolName,
     match Tools.getToolDefinition toolName with
     | Some tool => Tools.name tool = toolName /\ In tool Tools.COMPUTER_TOOLS
     | None => ~ In toolName COMPUTER_TOOLS
     end) /\
  (forall tool,
     In tool Tools.COMPUTER_TOOLS ->
     Tools.getToolDefinition (Tools.name tool) = Some tool).
Proof.
  split; [reflexivity|]. split.
  - intro toolName. unfold Tools.getToolDefinition.
    destruct (find _ Tools.COMPUTER_TOOLS) as [tool|] eqn:Hfind.
    + apply find_some in Hfind. destruct Hfind as [Hin Heq].
      apply String.eqb_eq in Heq. auto.
    + intro Hin.
      change COMPUTER_TOOLS with (map Tools.name Tools.COMPUTER_TOOLS) in Hin.
      apply in_map_iff in Hin. destruct Hin as (tool & Hname & Hin).
      pose proof (find_none _ _ Hfind tool Hin) as Hneq. simpl in Hneq.
      apply String.eqb_neq in Hneq. contradiction.
  - intros tool Hin. simpl in Hin.
    destruct Hin as [<-|[<-|[<-|[<-|[<-|[<-|[<-|[]]]]]]]]; reflexivity.
Qed.

Lemma responsive_answers (env : Env) (s : State) (n : nat) :
  responsive env -> sandbox_answers env s n.
Proof. intros [Hsb _] i _. apply Hsb. Qed.

Lemma responsive_screenshot (env : Env) (s : State) (d : string) :
  responsive env -> desktop s = Some d ->
  exists path img, screenshot_ok env s path img.
Proof.
  intros [Hsb Hfs] Hd.
  destruct (Hsb (List.length (sandbox_calls (trace s)))) as [path Hp].
  destruct (Hfs (List.length (file_reads (trace s)))) as [img Hi].
  exists path, img. split; eauto.
Qed.

(** X27: every tool of the catalog is implemented by the executor, and
    nothing else is: on an initialized agent whose sandbox and file system
    answer every call, a tool call whose name [getToolDefinition] knows
    returns a success object (with the image for [screenshot]), and a tool
    call whose name it does not know returns the unknown-tool error. *)
Theorem catalog_tools_are_executed (env : Env) (name : string) (input : ToolInput)
    (s : State) (d : string) :
  desktop s = Some d ->
  responsive env ->
  let result := fst (ComputerUseAgent.executeToolCall env name input s) in
  match Tools.getToolDefinition name with
  | Some _ =>
      result = Ret success \/
      exists img,
        result = Ret (JSON_stringify [("success", JTrue); ("image_base64", JString img)])
  | None =>
      result = Ret (JSON_stringify [("error", JString ("Unknown tool: " ++ name))])
  end.
Proof.
  intros Hd Hresp result. subst result.
  pose proof Hresp as [Hsb Hfs].
  assert (Hone : exists v,
            sandbox_reply env
              (List.length (sandbox_calls (trace s ++ [EExec name input]))) = Ok v)
    by apply Hsb.
  destruct Hone as [v Hv].
  unfold ComputerUseAgent.executeToolCall.
  rewrite bind_record, bind_get_desktop. cbn [desktop]. rewrite Hd.
  unfold Tools.getToolDefinition, Tools.COMPUTER_TOOLS. cbn [find Tools.name].
  rewrite (String.eqb_sym "screenshot"), (String.eqb_sym "click"),
    (String.eqb_sym "type"), (String.eqb_sym "key"), (String.eqb_sym "scroll"),
    (String.eqb_sym "launch_app"), (String.eqb_sym "wait").
  destruct (name =? "screenshot").
  { right.
    destruct (responsive_screenshot env
                (mkState (Some d) (conversationHistory s) (trace s ++ [EExec name input]))
                d Hresp eq_refl) as (path & img & Hok).
    exists img. unfold try_catch.
    erewrite bind_run; [|apply takeScreenshot_ok; exact Hok]. reflexivity. }
  destruct (name =? "click").
  { left. unfold try_catch, bind. rewrite sandbox_run. cbn [trace]. rewrite Hv.
    reflexivity. }
  destruct (name =? "type").
  { left. unfold try_catch, bind. rewrite sandbox_run. cbn [trace]. rewrite Hv.
    reflexivity. }
  destruct (name =? "key").
  { left. unfold try_catch, bind. rewrite sandbox_run. cbn [trace]. rewrite Hv.
    reflexivity. }
  destruct (name =? "scroll").
  { left. unfold try_catch.
    erewrite bind_run.
    2:{ apply (repeat_sandbox_answered env _ (ret tt) []);
          [apply ret_tt_adds_nothing | reflexivity |].
        apply responsive_answers. exact Hresp. }
    reflexivity. }
  destruct (name =? "launch_app").
  { left. unfold try_catch, bind. rewrite sandbox_run. cbn [trace]. rewrite Hv.
    reflexivity. }
  destruct (name =? "wait").
  { left. reflexivity. }
  reflexivity.
Qed.

Lemma catalog_tools_are_executed_witness :
  fst (ComputerUseAgent.executeToolCall (demo_env [] []) "launch_app"
         (mkInput None None None None None None (Some "gedit") None) ready)
  = Ret success \/
  exists img,
    fst (ComputerUseAgent.executeToolCall (demo_env [] []) "launch_app"
           (mkInput None None None None None None (Some "gedit") None) ready)
    = Ret (JSON_stringify [("success", JTrue); ("image_base64", JString img)]).
Proof.
  apply (catalog_tools_are_executed (demo_env [] []) "launch_app"
           (mkInput None None None None None None (Some "gedit") None) ready "sbx").
  - reflexivity.
  - split; intro n; eexists; reflexivity.
Defined.
